(** * discord_slash.context: the [SlashContext] adapter

    A shallow embedding of [src/discord_slash/context.py] and the properties
    of its three operations: construction from an interaction payload,
    [respond] (the acknowledgement) and [send] (the followup message).

    Python values are an inductive type with Python's truth-value rule;
    the mutable [self] and the record of calls made on the collaborators
    (HTTP client, logger, gateway) are threaded through a state monad in
    which a raised exception keeps the state reached so far, as in Python.
    What the module does not define itself (the builtins [int] and string
    formatting, the HTTP client's replies, the messages the gateway
    dispatches) is a section variable: every theorem holds for all of them. *)

From Stdlib Require Import ZArith List String Ascii Bool Lia.
From Stdlib Require Import PrimFloat DecimalString.
Import ListNotations.
Local Open Scope string_scope.
Local Open Scope Z_scope.
Local Open Scope list_scope.

Set Warnings "-register-all".

(** ** Python values *)

(** The values that reach this module: JSON data from the payload, the
    arguments of [send], and the three SDK classes whose instances [send]
    receives.  An SDK object is seen through what the module uses of it:
    its truth value and its [to_dict()].  [disnake.Embed] defines [__len__]
    and [__bool__], so an embed with nothing set is false in a condition;
    [disnake.File] and [disnake.AllowedMentions] define neither and are
    always true. *)
Inductive pyval : Type :=
| PNone
| PBool (b : bool)
| PInt (n : Z)
| PStr (s : string)
| PList (xs : list pyval)
| PTuple (xs : list pyval)
| PDict (kvs : list (string * pyval))
| PEmbed (has_data : bool) (d : pyval)
| PFile (fp : string)
| PMentions (d : pyval).

Inductive exn : Type :=
| IncorrectFormat (msg : string)
| KeyError (key : string)
| TypeError
| ValueError
| AttributeError
| TimeoutError
| ClientError (what : string).

Inductive result (A : Type) : Type :=
| Return (a : A)
| Raise (e : exn).
Arguments Return {A} a.
Arguments Raise {A} e.

Definition is_IncorrectFormat {A : Type} (r : result A) : bool :=
  match r with
  | Raise (IncorrectFormat _) => true
  | _ => false
  end.

Definition is_Return {A : Type} (r : result A) : bool :=
  match r with
  | Return _ => true
  | Raise _ => false
  end.

Definition is_nil {A : Type} (l : list A) : bool :=
  match l with
  | [] => true
  | _ :: _ => false
  end.

(** [bool(v)]: what [if v:] tests. *)
Definition truthy (v : pyval) : bool :=
  match v with
  | PNone => false
  | PBool b => b
  | PInt n => negb (n =? 0)
  | PStr s => negb (String.eqb s "")
  | PList xs => negb (is_nil xs)
  | PTuple xs => negb (is_nil xs)
  | PDict kvs => negb (is_nil kvs)
  | PEmbed has_data _ => has_data
  | PFile _ => true
  | PMentions _ => true
  end.

Fixpoint lookup (k : string) (kvs : list (string * pyval)) : option pyval :=
  match kvs with
  | [] => None
  | (k', v) :: rest => if String.eqb k k' then Some v else lookup k rest
  end.

(** [v[k]] for a string key. *)
Definition getitem (v : pyval) (k : string) : result pyval :=
  match v with
  | PDict kvs =>
      match lookup k kvs with
      | Some x => Return x
      | None => Raise (KeyError k)
      end
  | _ => Raise TypeError
  end.

Definition keys (v : pyval) : list string :=
  match v with
  | PDict kvs => map fst kvs
  | _ => []
  end.

(** [x.to_dict()]. *)
Definition to_dict (x : pyval) : result pyval :=
  match x with
  | PEmbed _ d => Return d
  | PMentions d => Return d
  | _ => Raise AttributeError
  end.

(** [isinstance(v, int) and lo <= v <= hi]; a [bool] is an [int] too. *)
Definition int_between (lo hi : Z) (v : pyval) : bool :=
  match v with
  | PInt n => (lo <=? n) && (n <=? hi)
  | PBool b => let n := if b then 1 else 0 in (lo <=? n) && (n <=? hi)
  | _ => false
  end.

(** [v == n] for an integer literal [n]. *)
Definition eq_int (v : pyval) (n : Z) : bool :=
  match v with
  | PInt m => m =? n
  | PBool b => (if b then 1 else 0) =? n
  | _ => false
  end.

Definition isinstance_list (v : pyval) : bool :=
  match v with
  | PList _ => true
  | _ => false
  end.

(** [s.startswith(p)]. *)
Fixpoint startswith (s p : string) : bool :=
  match p with
  | EmptyString => true
  | String c p' =>
      match s with
      | EmptyString => false
      | String d s' => Ascii.eqb d c && startswith s' p'
      end
  end.

(** ** The SDK objects the context holds *)

Record Member := { member_id : Z }.

Record Channel := { channel_id : Z; is_text_channel : bool }.

Record Guild := {
  guild_id : Z;
  get_member : Z -> option Member;
  get_channel : Z -> option Channel
}.

(** [disnake.Client]: the guild cache and the default allowed mentions. *)
Record Bot := {
  get_guild : Z -> option Guild;
  bot_allowed_mentions : pyval
}.

(** [message.type].  disnake builds it with [try_enum(MessageType, ...)]:
    always a member of the enumeration, a name paired with a value, which
    is not an [int] and equals none.  A raw value is what a gateway layer
    without the enumeration leaves there. *)
Inductive message_type : Type :=
| MessageType (member : string) (value : Z)
| RawType (v : pyval).

(** [t == n] for an integer literal [n]. *)
Definition type_eq_int (t : message_type) (n : Z) : bool :=
  match t with
  | MessageType _ _ => false
  | RawType v => eq_int v n
  end.

(** A gateway message, with the attributes [respond]'s check reads. *)
Record Message := {
  msg_author_id : Z;
  msg_channel_id : Z;
  msg_type : message_type;
  msg_content : string
}.

(** [http.SlashCommandRequest]: an opaque handle; its [post] is observed
    through the calls recorded in the trace. *)
Record HttpClient := { client_name : string }.

Record Logger := { logger_name : string }.

Record SlashContext := {
  token : pyval;
  message : option Message;
  name : pyval;
  command : pyval;
  invoked_with : pyval;
  subcommand_name : pyval;
  invoked_subcommand : pyval;
  subcommand_passed : pyval;
  subcommand_group : pyval;
  invoked_subcommand_group : pyval;
  subcommand_group_passed : pyval;
  interaction_id : pyval;
  command_id : pyval;
  _http : HttpClient;
  bot : Bot;
  logger : Logger;
  sent : bool;
  guild : Guild + Z;
  author : Member + Z;
  channel : Channel + Z
}.

Definition with_sent (b : bool) (c : SlashContext) : SlashContext :=
  {| token := token c; message := message c; name := name c;
     command := command c; invoked_with := invoked_with c;
     subcommand_name := subcommand_name c;
     invoked_subcommand := invoked_subcommand c;
     subcommand_passed := subcommand_passed c;
     subcommand_group := subcommand_group c;
     invoked_subcommand_group := invoked_subcommand_group c;
     subcommand_group_passed := subcommand_group_passed c;
     interaction_id := interaction_id c; command_id := command_id c;
     _http := _http c; bot := bot c; logger := logger c; sent := b;
     guild := guild c; author := author c; channel := channel c |}.

Definition with_message (m : option Message) (c : SlashContext) : SlashContext :=
  {| token := token c; message := m; name := name c;
     command := command c; invoked_with := invoked_with c;
     subcommand_name := subcommand_name c;
     invoked_subcommand := invoked_subcommand c;
     subcommand_passed := subcommand_passed c;
     subcommand_group := subcommand_group c;
     invoked_subcommand_group := invoked_subcommand_group c;
     subcommand_group_passed := subcommand_group_passed c;
     interaction_id := interaction_id c; command_id := command_id c;
     _http := _http c; bot := bot c; logger := logger c;
     sent := sent c;
     guild := guild c; author := author c; channel := channel c |}.

(** [model.SlashMessage(state=, data=, channel=, _http=, interaction_token=)],
    a class of [model.py]: the record of the constructor's arguments.
    [channel] is the context's text channel, or [disnake.Object(id=n)]
    around the channel id [n] the context holds. *)
Record SlashMessage := {
  sm_data : pyval;
  sm_channel : Channel + Z;
  sm_http : HttpClient;
  sm_interaction_token : pyval
}.

(** [delete_after]: a number of seconds, a [float] by its annotation. *)
Inductive seconds : Type :=
| SecInt (n : Z)
| SecFloat (f : float).

(** [bool(delete_after)]: [None] and zero are false, [nan] is true. *)
Definition delay_given (d : option seconds) : bool :=
  match d with
  | None => false
  | Some (SecInt n) => negb (n =? 0)
  | Some (SecFloat f) => negb (PrimFloat.eqb f PrimFloat.zero)
  end.

(** ** Effects *)

(** The calls the context makes on its collaborators, oldest first. *)
Inductive Event : Type :=
| Post (client : HttpClient) (args : list pyval) (kwargs : list (string * pyval))
| Warning (log : Logger) (msg : string)
| WaitFor (event : string) (timeout : Z)
| DeleteTask (m : SlashMessage) (delay : option seconds).

Definition State : Type := (SlashContext * list Event)%type.

(** Computations on [self] and the trace.  An exception leaves the state
    as it was when it was raised. *)
Definition M (A : Type) : Type := State -> result A * State.

Definition ret {A : Type} (a : A) : M A := fun st => (Return a, st).

Definition raise {A : Type} (e : exn) : M A := fun st => (Raise e, st).

Definition bind {A B : Type} (m : M A) (k : A -> M B) : M B :=
  fun st =>
    match m st with
    | (Return a, st') => k a st'
    | (Raise e, st') => (Raise e, st')
    end.

Declare Scope py_scope.
Delimit Scope py_scope with py.
Notation "x <- m ;; k" := (bind m (fun x => k))
  (at level 61, m at next level, right associativity) : py_scope.
Notation "m ;; k" := (bind m (fun _ => k))
  (at level 61, right associativity) : py_scope.
Local Open Scope py_scope.

Definition get_self : M SlashContext := fun st => (Return (fst st), st).

Definition modify_self (f : SlashContext -> SlashContext) : M unit :=
  fun st => (Return tt, (f (fst st), snd st)).

Definition emit (e : Event) : M unit :=
  fun st => (Return tt, (fst st, snd st ++ [e])).

Definition lift {A : Type} (r : result A) : M A := fun st => (r, st).

(** [await task]. *)
Definition await {A : Type} (task : result A) : M A := lift task.

(** [with suppress(asyncio.TimeoutError): body]. *)
Definition suppress_timeout (body : M unit) : M unit :=
  fun st =>
    match body st with
    | (Raise TimeoutError, st') => (Return tt, st')
    | other => other
    end.

Definition when (b : bool) (m : M unit) : M unit := if b then m else ret tt.

Fixpoint map_result {A B : Type} (f : A -> result B) (l : list A) : result (list B) :=
  match l with
  | [] => Return []
  | x :: rest =>
      match f x with
      | Raise e => Raise e
      | Return y =>
          match map_result f rest with
          | Raise e => Raise e
          | Return ys => Return (y :: ys)
          end
      end
  end.

Definition events_of {A : Type} (out : result A * State) : list Event := snd (snd out).
Definition self_of {A : Type} (out : result A * State) : SlashContext := fst (snd out).
Definition outcome {A : Type} (out : result A * State) : result A := fst out.

(** The pure fragment: [result] alone, for [__init__]. *)
Definition rbind {A B : Type} (r : result A) (k : A -> result B) : result B :=
  match r with
  | Return a => k a
  | Raise e => Raise e
  end.

Notation "x <~ r ;; k" := (rbind r (fun x => k))
  (at level 61, r at next level, right associativity) : py_scope.

(** The keyword arguments of [send], with their defaults. *)
Record SendArgs := {
  content : pyval;
  wait : pyval;
  embed : pyval;
  embeds : pyval;
  tts : pyval;
  file : pyval;
  files : pyval;
  allowed_mentions : pyval;
  hidden : bool;
  delete_after : option seconds
}.

(** What [send] returns: the client's reply on the hidden path, a
    [SlashMessage] otherwise. *)
Inductive SendResult : Type :=
| HiddenReply (resp : pyval)
| Sent (smsg : SlashMessage).

(** ** Reference collaborators and data, for the concrete runs *)

(** [int] on a string, for ASCII text: blanks around the number are
    dropped, a sign may come first, and the digits may be separated by
    single underscores. *)
Definition is_space (c : ascii) : bool :=
  let n := Z.of_nat (nat_of_ascii c) in
  (n =? 32) || ((9 <=? n) && (n <=? 13)) || ((28 <=? n) && (n <=? 31)).

Fixpoint lstrip (s : string) : string :=
  match s with
  | EmptyString => EmptyString
  | String c s' => if is_space c then lstrip s' else s
  end.

Fixpoint rstrip (s : string) : string :=
  match s with
  | EmptyString => EmptyString
  | String c s' =>
      match rstrip s' with
      | EmptyString => if is_space c then EmptyString else String c EmptyString
      | rest => String c rest
      end
  end.

Fixpoint decimal (s : string) (acc : Z) (after_digit : bool) : option Z :=
  match s with
  | EmptyString => if after_digit then Some acc else None
  | String c s' =>
      let d := Z.of_nat (nat_of_ascii c) - 48 in
      if (0 <=? d) && (d <=? 9) then decimal s' (10 * acc + d) true
      else if Ascii.eqb c "_" && after_digit then decimal s' acc false
      else None
  end.

Definition int_of_str (s : string) : result Z :=
  let signed (sign : Z) (digits : string) :=
    match decimal digits 0 false with
    | Some n => Return (sign * n)
    | None => Raise ValueError
    end in
  match rstrip (lstrip s) with
  | String "-" digits => signed (-1) digits
  | String "+" digits => signed 1 digits
  | digits => signed 1 digits
  end.

(** [int] on what a payload carries as an ID: an integer or a string. *)
Definition int_of_id (v : pyval) : result Z :=
  match v with
  | PInt n => Return n
  | PBool b => Return (if b then 1 else 0)
  | PStr s => int_of_str s
  | _ => Raise TypeError
  end.

(** [format] on [None], booleans, integers and strings, which is all the
    concrete runs format. *)
Definition format_str (v : pyval) : string :=
  match v with
  | PStr s => s
  | PNone => "None"
  | PBool true => "True"
  | PBool false => "False"
  | PInt n => NilZero.string_of_int (Z.to_int n)
  | _ => ""
  end.

(** A client whose every request succeeds with an empty reply, one whose
    every request fails, and a gateway that dispatches nothing. *)
Definition reply_ok (_ : list Event) : result pyval := Return (PDict []).
Definition reply_down (_ : list Event) : result pyval := Raise (ClientError "503").
Definition silence (_ : list Event) : list Message := [].

Definition http0 : HttpClient := {| client_name := "http" |}.
Definition logger0 : Logger := {| logger_name := "discord_slash" |}.

Definition member7 : Member := {| member_id := 7 |}.
Definition channel9 : Channel := {| channel_id := 9; is_text_channel := true |}.

Definition guild1 : Guild :=
  {| guild_id := 1;
     get_member := fun n => if n =? 7 then Some member7 else None;
     get_channel := fun n => if n =? 9 then Some channel9 else None |}.

Definition bot0 : Bot :=
  {| get_guild := fun n => if n =? 1 then Some guild1 else None;
     bot_allowed_mentions := PNone |}.

Definition payload0 : pyval :=
  PDict [("token", PStr "tok"); ("id", PStr "100");
         ("data", PDict [("name", PStr "ping"); ("id", PStr "200")]);
         ("guild_id", PStr "1"); ("channel_id", PStr "9");
         ("member", PDict [("user", PDict [("id", PStr "7")])])].

(** The context [__init__] builds from [payload0]. *)
Definition ctx0 : SlashContext :=
  {| token := PStr "tok"; message := None;
     name := PStr "ping"; command := PStr "ping"; invoked_with := PStr "ping";
     subcommand_name := PNone; invoked_subcommand := PNone;
     subcommand_passed := PNone;
     subcommand_group := PNone; invoked_subcommand_group := PNone;
     subcommand_group_passed := PNone;
     interaction_id := PStr "100"; command_id := PStr "200";
     _http := http0; bot := bot0; logger := logger0;
     sent := false;
     guild := inl guild1; author := inl member7; channel := inl channel9 |}.

(** The same context once acknowledged. *)
Definition ctx1 : SlashContext := with_sent true ctx0.

(** An acknowledged context whose channel the bot has cached and which
    is not a text channel. *)
Definition voice12 : Channel := {| channel_id := 12; is_text_channel := false |}.

Definition ctx_voice : SlashContext :=
  {| token := PStr "tok"; message := None;
     name := PStr "ping"; command := PStr "ping"; invoked_with := PStr "ping";
     subcommand_name := PNone; invoked_subcommand := PNone;
     subcommand_passed := PNone;
     subcommand_group := PNone; invoked_subcommand_group := PNone;
     subcommand_group_passed := PNone;
     interaction_id := PStr "100"; command_id := PStr "200";
     _http := http0; bot := bot0; logger := logger0;
     sent := true;
     guild := inl guild1; author := inl member7; channel := inl voice12 |}.

Definition embed_hi : pyval := PEmbed true (PDict [("title", PStr "hi"); ("type", PStr "rich")]).

(** [disnake.Embed()]: nothing set, false in a condition. *)
Definition embed_blank : pyval := PEmbed false (PDict [("type", PStr "rich")]).

Definition user_input : Message :=
  {| msg_author_id := 7; msg_channel_id := 9;
     msg_type := MessageType "application_command" 20;
     msg_content := "</ping:200> " |}.

Definition chatter : Message :=
  {| msg_author_id := 8; msg_channel_id := 9;
     msg_type := MessageType "default" 0;
     msg_content := "hello" |}.

(** A call [send(content, embed=, embeds=, hidden=)], the other arguments
    at their defaults. *)
Definition call (content0 embed0 embeds0 : pyval) (hidden0 : bool) : SendArgs :=
  {| content := content0; wait := PBool false; embed := embed0;
     embeds := embeds0; tts := PBool false; file := PNone; files := PNone;
     allowed_mentions := PNone; hidden := hidden0; delete_after := None |}.

(** [send("pong", embed=e, embeds=[e])], plain and hidden. *)
Definition call_both : SendArgs :=
  call (PStr "pong") embed_hi (PList [embed_hi]) false.
Definition call_both_hidden : SendArgs :=
  call (PStr "pong") embed_hi (PList [embed_hi]) true.

(** [send("pong", embed=e, embeds=[])]. *)
Definition call_embed_and_empty : SendArgs :=
  call (PStr "pong") embed_hi (PList []) false.

(** [send("pong", embeds=[e])]. *)
Definition call_embeds : SendArgs :=
  call (PStr "pong") PNone (PList [embed_hi]) false.

(** [send("pong", embeds=[e] * 11)]. *)
Definition call_eleven : SendArgs :=
  call (PStr "pong") PNone (PList (repeat embed_hi 11)) false.

(** [send("pong", embed=disnake.Embed())]. *)
Definition call_blank : SendArgs :=
  call (PStr "pong") embed_blank PNone false.

(** [send("pong", embeds=())]. *)
Definition call_empty_tuple : SendArgs :=
  call (PStr "pong") PNone (PTuple []) false.

(** [send(3)], the pre-1.0.9 usage. *)
Definition call_legacy : SendArgs := call (PInt 3) PNone PNone false.

(** [send(3, hidden=True)] and [send("pong", embed=disnake.Embed(), hidden=True)]. *)
Definition call_legacy_hidden : SendArgs := call (PInt 3) PNone PNone true.
Definition call_blank_hidden : SendArgs :=
  call (PStr "pong") embed_blank PNone true.

(** The triggering message as a gateway layer that leaves the type raw
    would deliver it. *)
Definition user_input_raw : Message :=
  {| msg_author_id := 7; msg_channel_id := 9; msg_type := RawType (PInt 20);
     msg_content := "</ping:200> " |}.

(** An interaction in a direct message: no [guild_id], no [member]. *)
Definition payload_dm : pyval :=
  PDict [("token", PStr "tok"); ("id", PStr "100");
         ("data", PDict [("name", PStr "ping"); ("id", PStr "200")]);
         ("channel_id", PStr "9");
         ("user", PDict [("id", PStr "7")])].

(** [send("pong", embeds=[e, "oops"])]. *)
Definition call_bad_element : SendArgs :=
  call (PStr "pong") PNone (PList [embed_hi; PStr "oops"]) false.

(** [send("pong", embeds=[e], delete_after=5)]. *)
Definition call_delete : SendArgs :=
  {| content := PStr "pong"; wait := PBool true; embed := PNone;
     embeds := PList [embed_hi]; tts := PBool false; file := PNone;
     files := PNone; allowed_mentions := PNone; hidden := false;
     delete_after := Some (SecInt 5) |}.

(** ** The context's operations *)

Section Context.

(** The builtins: [int(v)], and [format(v)] as an f-string applies it. *)
Variable py_int : pyval -> result Z.
Variable py_format : pyval -> string.

(** The HTTP client's answer to the [post] call that ends the given
    trace: the response, or the exception the awaited call raises. *)
Variable http_reply : list Event -> result pyval.

(** The gateway messages dispatched, in order, while the [wait_for] call
    that ends the given trace is waiting, before its timeout expires. *)
Variable dispatched : list Event -> list Message.

(** [self._http.post] with its positional and keyword arguments: the
    call is recorded, the
    awaitable it returns carries the client's answer. *)
Definition post (client : HttpClient) (args : list pyval)
           (kwargs : list (string * pyval)) : M (result pyval) :=
  emit (Post client args kwargs) ;;
  fun st => (Return (http_reply (snd st)), st).

(** [await self.bot.wait_for(event, timeout=, check=)]: the first
    dispatched message the check accepts, [TimeoutError] when none is. *)
Definition wait_for (event : string) (timeout : Z) (check : Message -> bool)
  : M Message :=
  emit (WaitFor event timeout) ;;
  fun st =>
    match find check (dispatched (snd st)) with
    | Some m => (Return m, st)
    | None => (Raise TimeoutError, st)
    end.

Definition warning (msg : string) : M unit :=
  self <- get_self ;;
  emit (Warning (logger self) msg).

(** [int(_json["member"]["user"]["id"])]. *)
Definition user_id_of (_json : pyval) : result Z :=
  member <~ getitem _json "member" ;;
  user <~ getitem member "user" ;;
  id <~ getitem user "id" ;;
  py_int id.

Definition channel_id_of (_json : pyval) : result Z :=
  c <~ getitem _json "channel_id" ;;
  py_int c.

Definition guild_id_of (_json : pyval) : result Z :=
  g <~ getitem _json "guild_id" ;;
  py_int g.

Definition __init__ (_http0 : HttpClient) (_json : pyval) (_discord : Bot)
           (logger0 : Logger) : result SlashContext :=
  token0 <~ getitem _json "token" ;;
  data <~ getitem _json "data" ;;
  name0 <~ getitem data "name" ;;
  interaction_id0 <~ getitem _json "id" ;;
  data' <~ getitem _json "data" ;;
  command_id0 <~ getitem data' "id" ;;
  gid <~ guild_id_of _json ;;
  let guild0 := get_guild _discord gid in
  author0 <~ match guild0 with
             | Some g => uid <~ user_id_of _json ;; Return (get_member g uid)
             | None => Return None
             end ;;
  channel0 <~ match guild0 with
              | Some g => cid <~ channel_id_of _json ;; Return (get_channel g cid)
              | None => Return None
              end ;;
  author1 <~ match author0 with
             | Some m => Return (inl m)
             | None => uid <~ user_id_of _json ;; Return (inr uid)
             end ;;
  channel1 <~ match channel0 with
              | Some c => Return (inl c)
              | None => cid <~ channel_id_of _json ;; Return (inr cid)
              end ;;
  guild1 <~ match guild0 with
            | Some g => Return (inl g)
            | None => gid' <~ guild_id_of _json ;; Return (inr gid')
            end ;;
  Return {| token := token0; message := None;
            name := name0; command := name0; invoked_with := name0;
            subcommand_name := PNone; invoked_subcommand := PNone;
            subcommand_passed := PNone;
            subcommand_group := PNone; invoked_subcommand_group := PNone;
            subcommand_group_passed := PNone;
            interaction_id := interaction_id0; command_id := command_id0;
            _http := _http0; bot := _discord; logger := logger0;
            sent := false;
            guild := guild1; author := author1; channel := channel1 |}.

(** The closure [check] inside [respond]. *)
Definition check (self : SlashContext) (message0 : Message) : bool :=
  let user_id := match author self with
                 | inr n => n
                 | inl m => member_id m
                 end in
  let is_author := msg_author_id message0 =? user_id in
  let channel_id0 := match channel self with
                     | inr n => n
                     | inl c => channel_id c
                     end in
  let is_channel := channel_id0 =? msg_channel_id message0 in
  let is_user_input := type_eq_int (msg_type message0) 20 in
  let is_correct_command :=
    startswith (msg_content message0)
      ("</" ++ py_format (name self) ++ ":"
            ++ py_format (command_id self) ++ ">")%string in
  is_author && is_channel && is_user_input && is_correct_command.

Definition respond (eat : bool) : M unit :=
  self <- get_self ;;
  let base := PDict [("type", PInt (if eat then 2 else 5))] in
  _task <- post (_http self)
             [base; PBool false; interaction_id self; token self; PBool true] [] ;;
  modify_self (with_sent true) ;;
  when (negb eat)
    (suppress_timeout
       (self' <- get_self ;;
        m <- wait_for "message" 3 (check self') ;;
        modify_self (with_message (Some m)))) ;;
  _ <- await _task ;;
  ret tt.

(** The property [ack]: an alias of [respond]. *)
Definition ack : bool -> M unit := respond.

(** [send_hidden], awaited. *)
Definition send_hidden (content0 : pyval) : M pyval :=
  self <- get_self ;;
  let base := PDict [("content", content0); ("flags", PInt 64)] in
  t <- post (_http self) [base; PBool false; interaction_id self; token self] [] ;;
  await t.

(** [[x.to_dict() for x in embeds] if embeds else []].  A list or a
    tuple is iterated; a non-empty string gives its characters and a
    non-empty dict its keys, strings without [to_dict]; the other values
    are not iterable. *)
Definition embeds_to_dict (embeds0 : pyval) : result (list pyval) :=
  if truthy embeds0 then
    match embeds0 with
    | PList xs => map_result to_dict xs
    | PTuple xs => map_result to_dict xs
    | PStr _ => Raise AttributeError
    | PDict _ => Raise AttributeError
    | _ => Raise TypeError
    end
  else Return [].

(** The [allowed_mentions] entry of the body. *)
Definition mentions_to_dict (self : SlashContext) (allowed_mentions0 : pyval)
  : result pyval :=
  if truthy allowed_mentions0 then to_dict allowed_mentions0
  else if truthy (bot_allowed_mentions (bot self))
       then to_dict (bot_allowed_mentions (bot self))
       else Return (PDict []).

Definition message_body (content0 tts0 : pyval) (embeds0 : list pyval)
           (mentions : pyval) : pyval :=
  PDict [("content", content0); ("tts", tts0); ("embeds", PList embeds0);
         ("allowed_mentions", mentions)].

(** The [SlashMessage] of lines 169-173.  [disnake.Object(id=x)] converts
    [x] with [int]: handed a channel object that is not a text channel, it
    raises [TypeError]. *)
Definition slash_message (self : SlashContext) (resp : pyval)
  : result SlashMessage :=
  channel0 <~ match channel self with
              | inl c => if is_text_channel c then Return (inl c)
                         else Raise TypeError
              | inr n => Return (inr n)
              end ;;
  Return {| sm_data := resp; sm_channel := channel0;
            sm_http := _http self;
            sm_interaction_token := token self |}.

Definition send (a : SendArgs) : M SendResult :=
  if int_between 2 5 (content a) then
    raise (IncorrectFormat
      "`.send` Method is rewritten at Release 1.0.9. Please read the docs and fix all the usages.")
  else
  self <- get_self ;;
  when (negb (sent self))
    (warning ("At command `" ++ py_format (name self)
              ++ "`: It is highly recommended to call `.respond()` first!")%string ;;
     respond false) ;;
  if hidden a then
    when (truthy (embeds a) || truthy (embed a))
      (warning "Embed is not supported for `hidden`!") ;;
    resp <- send_hidden (content a) ;;
    ret (HiddenReply resp)
  else
  if truthy (embed a) && truthy (embeds a) then
    raise (IncorrectFormat "You can't use both `embed` and `embeds`!")
  else
  let embeds1 := if truthy (embed a) then PList [embed a] else embeds a in
  (if truthy embeds1 then
     match embeds1 with
     | PList xs =>
         if 10 <? Z.of_nat (List.length xs)
         then raise (IncorrectFormat "Do not provide more than 10 embeds.")
         else ret tt
     | _ => raise (IncorrectFormat "Provide a list of embeds.")
     end
   else ret tt) ;;
  if truthy (file a) && truthy (files a) then
    raise (IncorrectFormat "You can't use both `file` and `files`!")
  else
  let files1 := if truthy (file a) then PList [file a] else files a in
  self <- get_self ;;
  embeds_d <- lift (embeds_to_dict embeds1) ;;
  mentions <- lift (mentions_to_dict self (allowed_mentions a)) ;;
  let base := message_body (content a) (tts a) embeds_d mentions in
  t <- post (_http self) [base; wait a; interaction_id self; token self]
         [("files", files1)] ;;
  resp <- await t ;;
  smsg <- lift (slash_message self resp) ;;
  when (delay_given (delete_after a)) (emit (DeleteTask smsg (delete_after a))) ;;
  ret (Sent smsg).

(** [_legacy_send], awaited. *)
Definition _legacy_send (content0 tts0 embeds0 allowed_mentions0 : pyval)
  : M pyval :=
  self <- get_self ;;
  embeds_d <- lift (embeds_to_dict embeds0) ;;
  mentions <- lift (mentions_to_dict self allowed_mentions0) ;;
  let base := message_body content0 tts0 embeds_d mentions in
  t <- post (_http self) [base; PBool false; interaction_id self; token self] [] ;;
  await t.


(** ** What the properties speak of *)

(** The acknowledgement request of [respond]. *)
Definition ack_request (c : SlashContext) (eat : bool) : Event :=
  Post (_http c)
    [PDict [("type", PInt (if eat then 2 else 5))]; PBool false;
     interaction_id c; token c; PBool true] [].

(** The followup request of the hidden path. *)
Definition hidden_request (c : SlashContext) (content0 : pyval) : Event :=
  Post (_http c)
    [PDict [("content", content0); ("flags", PInt 64)]; PBool false;
     interaction_id c; token c] [].

(** The followup request of the ordinary path. *)
Definition followup_request (c : SlashContext) (body wait0 files0 : pyval) : Event :=
  Post (_http c) [body; wait0; interaction_id c; token c] [("files", files0)].

Definition respond_warning (c : SlashContext) : Event :=
  Warning (logger c)
    ("At command `" ++ py_format (name c)
     ++ "`: It is highly recommended to call `.respond()` first!")%string.

Definition hidden_warning (c : SlashContext) : Event :=
  Warning (logger c) "Embed is not supported for `hidden`!".

(** What [send] records before anything else when it has to acknowledge
    first: the warning, the acknowledgement, the wait of [respond()]. *)
Definition respond_events (c : SlashContext) : list Event :=
  if sent c then []
  else [respond_warning c; ack_request c false; WaitFor "message" 3].

(** The client's answer to that acknowledgement. *)
Definition ack_reply (c : SlashContext) (evs : list Event) : result pyval :=
  http_reply (evs ++ [respond_warning c; ack_request c false]).

(** [send] gets past its implicit [respond()]: the context was already
    acknowledged, or the acknowledgement request does not fail. *)
Definition acknowledged (c : SlashContext) (evs : list Event) : bool :=
  sent c || is_Return (ack_reply c evs).

(** The message [respond] finds while it waits, if any. *)
Definition correlated (c : SlashContext) (evs : list Event) : option Message :=
  find (check c) (dispatched (evs ++ [WaitFor "message" 3])).

(** [embeds] after lines 148-149, [files] after lines 157-158. *)
Definition embeds_in_effect (a : SendArgs) : pyval :=
  if truthy (embed a) then PList [embed a] else embeds a.

Definition files_in_effect (a : SendArgs) : pyval :=
  if truthy (file a) then PList [file a] else files a.

(** [self] once the implicit [respond()] of [send] has run. *)
Definition acked_self (c : SlashContext) (evs : list Event) : SlashContext :=
  if sent c then c
  else match correlated c (evs ++ [respond_warning c; ack_request c false]) with
       | Some m => with_message (Some m) (with_sent true c)
       | None => with_sent true c
       end.

(** The embeds check of lines 150-154 lets the value through. *)
Definition embeds_accepted (v : pyval) : bool :=
  negb (truthy v) ||
  match v with
  | PList xs => Z.of_nat (List.length xs) <=? 10
  | _ => false
  end.

(** One of the checks of lines 146-156 fails. *)
Definition rejected (a : SendArgs) : bool :=
  (truthy (embed a) && truthy (embeds a))
  || negb (embeds_accepted (embeds_in_effect a))
  || (truthy (file a) && truthy (files a)).

(** The first positional argument of every [post] in a trace. *)
Fixpoint posted_bodies (evs : list Event) : list pyval :=
  match evs with
  | [] => []
  | Post _ (body :: _) _ :: rest => body :: posted_bodies rest
  | _ :: rest => posted_bodies rest
  end.

(** A recorded call goes through the context's own collaborators and
    carries the context's interaction id and token. *)
Definition delegated (c : SlashContext) (e : Event) : Prop :=
  match e with
  | Post client (_ :: _ :: iid :: tok :: _) _ =>
      client = _http c /\ iid = interaction_id c /\ tok = token c
  | Post _ _ _ => False
  | Warning log _ => log = logger c
  | WaitFor _ _ => True
  | DeleteTask m _ => sm_http m = _http c /\ sm_interaction_token m = token c
  end.

Definition set_embed (e es : pyval) (a : SendArgs) : SendArgs :=
  {| content := content a; wait := wait a; embed := e; embeds := es;
     tts := tts a; file := file a; files := files a;
     allowed_mentions := allowed_mentions a; hidden := hidden a;
     delete_after := delete_after a |}.

Definition set_file (f fs : pyval) (a : SendArgs) : SendArgs :=
  {| content := content a; wait := wait a; embed := embed a;
     embeds := embeds a; tts := tts a; file := f; files := fs;
     allowed_mentions := allowed_mentions a; hidden := hidden a;
     delete_after := delete_after a |}.

(** What [__init__] needs of a payload: the fields it reads, and IDs
    that [int] converts. *)
Definition payload_ok (_json : pyval) : bool :=
  is_Return (getitem _json "token")
  && is_Return (data <~ getitem _json "data" ;; getitem data "name")
  && is_Return (getitem _json "id")
  && is_Return (data <~ getitem _json "data" ;; getitem data "id")
  && is_Return (v <~ getitem _json "guild_id" ;; py_int v)
  && is_Return (member <~ getitem _json "member" ;;
                user <~ getitem member "user" ;;
                v <~ getitem user "id" ;; py_int v)
  && is_Return (v <~ getitem _json "channel_id" ;; py_int v).

(** [c'] has every attribute of [c], [sent] and [message] apart. *)
Definition same_identity (c c' : SlashContext) : Prop :=
  token c' = token c /\ name c' = name c /\ command c' = command c /\
  invoked_with c' = invoked_with c /\
  subcommand_name c' = subcommand_name c /\
  invoked_subcommand c' = invoked_subcommand c /\
  subcommand_passed c' = subcommand_passed c /\
  subcommand_group c' = subcommand_group c /\
  invoked_subcommand_group c' = invoked_subcommand_group c /\
  subcommand_group_passed c' = subcommand_group_passed c /\
  interaction_id c' = interaction_id c /\ command_id c' = command_id c /\
  _http c' = _http c /\ bot c' = bot c /\ logger c' = logger c /\
  guild c' = guild c /\ author c' = author c /\ channel c' = channel c.

(** An acknowledgement among the recorded calls: a [post] with the fifth
    positional argument [True], as [respond] alone issues it. *)
Definition is_ack (e : Event) : bool :=
  match e with
  | Post _ [_; _; _; _; PBool true] _ => true
  | _ => false
  end.

Definition acks (evs : list Event) : nat := List.length (filter is_ack evs).

(** ** Equations of the operations *)

Ltac run :=
  cbv [respond send send_hidden _legacy_send post wait_for warning
       suppress_timeout when await lift raise ret bind get_self
       modify_self emit events_of self_of outcome fst snd].

Lemma respond_eq : forall eat c evs,
  respond eat (c, evs) =
  let evs1 := evs ++ [ack_request c eat] in
  let c1 := with_sent true c in
  let done := match http_reply evs1 with
              | Return _ => Return tt
              | Raise e => Raise e
              end in
  if eat then (done, (c1, evs1))
  else match correlated c evs1 with
       | Some m => (done, (with_message (Some m) c1, evs1 ++ [WaitFor "message" 3]))
       | None => (done, (c1, evs1 ++ [WaitFor "message" 3]))
       end.
Proof.
  intros eat c evs. unfold correlated, ack_request. run.
  destruct eat; simpl.
  - destruct (http_reply _); reflexivity.
  - change (check (with_sent true c)) with (check c).
    destruct (find _ _); destruct (http_reply _); reflexivity.
Qed.

Lemma send_legacy : forall a st,
  int_between 2 5 (content a) = true ->
  exists msg, send a st = (Raise (IncorrectFormat msg), st).
Proof.
  intros a st H. unfold send. rewrite H. eexists. reflexivity.
Qed.

(** A failed acknowledgement ends [send]. *)
Lemma send_ack_failed : forall a c evs e,
  int_between 2 5 (content a) = false ->
  sent c = false ->
  ack_reply c evs = Raise e ->
  send a (c, evs) = (Raise e, (acked_self c evs, evs ++ respond_events c)).
Proof.
  intros a c evs e Hl Hs Hr.
  unfold send. rewrite Hl.
  unfold acked_self, respond_events, ack_reply, correlated in *.
  unfold respond_warning, ack_request in *.
  run. rewrite Hs. cbv [negb]. run. rewrite <- ?app_assoc. cbn [app]. rewrite Hr.
  change (check (with_sent true c)) with (check c).
  destruct (find _ _); reflexivity.
Qed.

(** Past a successful acknowledgement, [send] goes on as it would on the
    acknowledged context. *)
Lemma send_after_ack : forall a c evs r,
  int_between 2 5 (content a) = false ->
  sent c = false ->
  ack_reply c evs = Return r ->
  send a (c, evs) = send a (acked_self c evs, evs ++ respond_events c).
Proof.
  intros a c evs r Hl Hs Hr.
  unfold send. rewrite Hl.
  unfold acked_self, respond_events, ack_reply, correlated in *.
  unfold respond_warning, ack_request in *.
  run. rewrite Hs. cbv [negb]. run. rewrite <- ?app_assoc. cbn [app]. rewrite Hr.
  change (check (with_sent true c)) with (check c).
  destruct (find _ _); reflexivity.
Qed.

Lemma acked_self_sent : forall c evs, sent (acked_self c evs) = true.
Proof.
  intros c evs. unfold acked_self.
  destruct (sent c) eqn:Hs; [exact Hs|].
  destruct (correlated _ _); reflexivity.
Qed.

Lemma acked_self_same : forall c evs,
  _http (acked_self c evs) = _http c /\
  interaction_id (acked_self c evs) = interaction_id c /\
  token (acked_self c evs) = token c /\
  logger (acked_self c evs) = logger c /\
  bot (acked_self c evs) = bot c /\
  channel (acked_self c evs) = channel c.
Proof.
  intros c evs. unfold acked_self.
  destruct (sent c); [|destruct (correlated _ _)]; repeat split.
Qed.

Lemma sent_hidden : forall a c evs,
  int_between 2 5 (content a) = false ->
  sent c = true ->
  hidden a = true ->
  send a (c, evs) =
  let evs' := evs ++ (if truthy (embeds a) || truthy (embed a)
                      then [hidden_warning c] else [])
                  ++ [hidden_request c (content a)] in
  (match http_reply evs' with
   | Return r => Return (HiddenReply r)
   | Raise e => Raise e
   end, (c, evs')).
Proof.
  intros a c evs Hl Hs Hh.
  unfold send. rewrite Hl. unfold hidden_warning, hidden_request.
  run. rewrite Hs, Hh. cbv [negb]. run.
  destruct (truthy (embeds a) || truthy (embed a)); run;
    rewrite <- ?app_assoc; cbn [app]; rewrite ?app_nil_r;
    destruct (http_reply _); reflexivity.
Qed.

Lemma sent_conflict_embed : forall a c evs,
  int_between 2 5 (content a) = false ->
  sent c = true ->
  hidden a = false ->
  truthy (embed a) && truthy (embeds a) = true ->
  send a (c, evs) =
  (Raise (IncorrectFormat "You can't use both `embed` and `embeds`!"), (c, evs)).
Proof.
  intros a c evs Hl Hs Hh He.
  unfold send. rewrite Hl.
  run. rewrite Hs, Hh, He. reflexivity.
Qed.

Lemma sent_embeds_rejected : forall a c evs,
  int_between 2 5 (content a) = false ->
  sent c = true ->
  hidden a = false ->
  truthy (embed a) && truthy (embeds a) = false ->
  embeds_accepted (embeds_in_effect a) = false ->
  send a (c, evs) =
  (Raise (IncorrectFormat
     (if isinstance_list (embeds_in_effect a)
      then "Do not provide more than 10 embeds."
      else "Provide a list of embeds.")), (c, evs)).
Proof.
  intros a c evs Hl Hs Hh He Hacc.
  unfold send. rewrite Hl.
  run. rewrite Hs, Hh, He. cbv [negb]. run.
  unfold embeds_accepted, embeds_in_effect in *.
  destruct (truthy (if truthy (embed a) then PList [embed a] else embeds a));
    [|discriminate].
  cbn [negb orb] in Hacc.
  destruct (if truthy (embed a) then PList [embed a] else embeds a);
    try reflexivity.
  rewrite Z.leb_antisym in Hacc. apply negb_false_iff in Hacc.
  rewrite Hacc. reflexivity.
Qed.

Lemma sent_conflict_file : forall a c evs,
  int_between 2 5 (content a) = false ->
  sent c = true ->
  hidden a = false ->
  truthy (embed a) && truthy (embeds a) = false ->
  embeds_accepted (embeds_in_effect a) = true ->
  truthy (file a) && truthy (files a) = true ->
  send a (c, evs) =
  (Raise (IncorrectFormat "You can't use both `file` and `files`!"), (c, evs)).
Proof.
  intros a c evs Hl Hs Hh He Hacc Hf.
  unfold send. rewrite Hl.
  run. rewrite Hs, Hh, He, Hf. cbv [negb]. run.
  unfold embeds_accepted, embeds_in_effect in *.
  destruct (truthy (if truthy (embed a) then PList [embed a] else embeds a));
    [|reflexivity].
  cbn [negb orb] in Hacc.
  destruct (if truthy (embed a) then PList [embed a] else embeds a);
    try discriminate.
  rewrite Z.leb_antisym in Hacc. apply negb_true_iff in Hacc.
  rewrite Hacc. reflexivity.
Qed.

(** Past the checks, what is left of [send] depends on the checked
    arguments only through the embeds and files in effect. *)
Lemma sent_checked : forall a c evs,
  int_between 2 5 (content a) = false ->
  sent c = true ->
  hidden a = false ->
  truthy (embed a) && truthy (embeds a) = false ->
  embeds_accepted (embeds_in_effect a) = true ->
  truthy (file a) && truthy (files a) = false ->
  send a (c, evs) =
  match embeds_to_dict (embeds_in_effect a) with
  | Raise e => (Raise e, (c, evs))
  | Return ds =>
      match mentions_to_dict c (allowed_mentions a) with
      | Raise e => (Raise e, (c, evs))
      | Return am =>
          let body := message_body (content a) (tts a) ds am in
          let evs1 := evs ++ [followup_request c body (wait a) (files_in_effect a)] in
          match http_reply evs1 with
          | Raise e => (Raise e, (c, evs1))
          | Return r =>
              match slash_message c r with
              | Raise e => (Raise e, (c, evs1))
              | Return smsg =>
                  (Return (Sent smsg),
                   (c, evs1 ++ (if delay_given (delete_after a)
                                then [DeleteTask smsg (delete_after a)]
                                else [])))
              end
          end
      end
  end.
Proof.
  intros a c evs Hl Hs Hh He Hacc Hf.
  unfold send. rewrite Hl.
  run. rewrite Hs, Hh, He, Hf. cbv [negb]. run.
  unfold embeds_accepted, embeds_in_effect, files_in_effect,
    followup_request in *.
  remember (if truthy (embed a) then PList [embed a] else embeds a) as es.
  destruct (truthy es) eqn:Ht.
  - cbn [negb orb] in Hacc.
    destruct es; try discriminate.
    rewrite Z.leb_antisym in Hacc. apply negb_true_iff in Hacc.
    rewrite Hacc.
    destruct (embeds_to_dict _); [|reflexivity].
    destruct (mentions_to_dict c (allowed_mentions a)); [|reflexivity].
    destruct (http_reply _); [|reflexivity].
    destruct (slash_message c _); [|reflexivity].
    destruct (delay_given (delete_after a)); run;
      rewrite ?app_nil_r; reflexivity.
  - destruct (embeds_to_dict _); [|reflexivity].
    destruct (mentions_to_dict c (allowed_mentions a)); [|reflexivity].
    destruct (http_reply _); [|reflexivity].
    destruct (slash_message c _); [|reflexivity].
    destruct (delay_given (delete_after a)); run;
      rewrite ?app_nil_r; reflexivity.
Qed.

Lemma send_acknowledged : forall a c evs,
  int_between 2 5 (content a) = false ->
  acknowledged c evs = true ->
  send a (c, evs) = send a (acked_self c evs, evs ++ respond_events c).
Proof.
  intros a c evs Hl Hack. unfold acknowledged in Hack.
  destruct (sent c) eqn:Hs.
  - unfold acked_self, respond_events. rewrite Hs, app_nil_r. reflexivity.
  - cbn [orb] in Hack. destruct (ack_reply c evs) eqn:Hr; [|discriminate].
    eapply send_after_ack; eassumption.
Qed.

Lemma delegated_acked : forall c evs e,
  delegated (acked_self c evs) e <-> delegated c e.
Proof.
  intros c evs e.
  destruct (acked_self_same c evs) as (Hh & Hi & Ht & Hlg & _).
  unfold delegated. rewrite Hh, Hi, Ht, Hlg. reflexivity.
Qed.

Lemma delegated_respond_events : forall c, Forall (delegated c) (respond_events c).
Proof.
  intros c. unfold respond_events.
  destruct (sent c); repeat constructor.
Qed.

Lemma slash_message_inv : forall c r smsg,
  slash_message c r = Return smsg ->
  sm_data smsg = r /\
  sm_http smsg = _http c /\
  sm_interaction_token smsg = token c /\
  match channel c with
  | inl ch => is_text_channel ch = true /\ sm_channel smsg = inl ch
  | inr n => sm_channel smsg = inr n
  end.
Proof.
  intros c r smsg H. unfold slash_message, rbind in H.
  destruct (channel c) as [ch|n].
  - destruct (is_text_channel ch); [|discriminate].
    inversion H. repeat split.
  - inversion H. repeat split.
Qed.

(** On an acknowledged context [send] leaves [self] alone and records
    only delegated calls. *)
Lemma sent_frame : forall a c evs,
  int_between 2 5 (content a) = false ->
  sent c = true ->
  exists rest,
    self_of (send a (c, evs)) = c /\
    events_of (send a (c, evs)) = evs ++ rest /\
    Forall (delegated c) rest.
Proof.
  intros a c evs Hl Hs.
  destruct (hidden a) eqn:Hh.
  { rewrite (sent_hidden a c evs Hl Hs Hh). cbv zeta.
    eexists. split; [reflexivity|]. split; [reflexivity|].
    destruct (truthy (embeds a) || truthy (embed a));
      repeat constructor. }
  destruct (truthy (embed a) && truthy (embeds a)) eqn:He.
  { rewrite (sent_conflict_embed a c evs Hl Hs Hh He).
    exists []. rewrite app_nil_r. repeat split. constructor. }
  destruct (embeds_accepted (embeds_in_effect a)) eqn:Hacc.
  2:{ rewrite (sent_embeds_rejected a c evs Hl Hs Hh He Hacc).
      exists []. rewrite app_nil_r. repeat split. constructor. }
  destruct (truthy (file a) && truthy (files a)) eqn:Hf.
  { rewrite (sent_conflict_file a c evs Hl Hs Hh He Hacc Hf).
    exists []. rewrite app_nil_r. repeat split. constructor. }
  rewrite (sent_checked a c evs Hl Hs Hh He Hacc Hf).
  destruct (embeds_to_dict _).
  2:{ exists []. rewrite app_nil_r. repeat split. constructor. }
  destruct (mentions_to_dict _ _).
  2:{ exists []. rewrite app_nil_r. repeat split. constructor. }
  cbv zeta. destruct (http_reply _) as [r|].
  - destruct (slash_message c r) as [smsg|] eqn:Hsm.
    + destruct (slash_message_inv c r smsg Hsm) as (_ & Hh' & Ht' & _).
      eexists. split; [reflexivity|]. split.
      * unfold events_of. cbn [snd]. rewrite <- app_assoc. reflexivity.
      * destruct (delay_given (delete_after a)); repeat constructor;
          assumption.
    + eexists. split; [reflexivity|]. split; [reflexivity|].
      repeat constructor.
  - eexists. split; [reflexivity|]. split; [reflexivity|].
    repeat constructor.
Qed.

(** Every run of [send] past the legacy guard: [self] is the context as
    the implicit [respond()] leaves it, and the trace grows by what that
    records, then by delegated calls. *)
Lemma send_frame : forall a c evs,
  int_between 2 5 (content a) = false ->
  exists rest,
    self_of (send a (c, evs)) = acked_self c evs /\
    events_of (send a (c, evs)) = evs ++ respond_events c ++ rest /\
    Forall (delegated c) rest.
Proof.
  intros a c evs Hl.
  destruct (acknowledged c evs) eqn:Hack.
  - rewrite (send_acknowledged a c evs Hl Hack).
    destruct (sent_frame a (acked_self c evs) (evs ++ respond_events c) Hl
                (acked_self_sent c evs)) as (rest & H1 & H2 & H3).
    exists rest. split; [exact H1|]. split.
    + rewrite H2, <- app_assoc. reflexivity.
    + eapply Forall_impl; [|exact H3]. intros e. apply delegated_acked.
  - unfold acknowledged in Hack. apply orb_false_iff in Hack.
    destruct Hack as [Hs Hr].
    destruct (ack_reply c evs) eqn:Hr'; [discriminate|].
    rewrite (send_ack_failed a c evs e Hl Hs Hr').
    exists []. rewrite app_nil_r. repeat split. constructor.
Qed.

(** ** Construction *)

Lemma guild_id_of_inv : forall j gid,
  guild_id_of j = Return gid ->
  exists v, getitem j "guild_id" = Return v /\ py_int v = Return gid.
Proof.
  intros j gid H. unfold guild_id_of, rbind in H.
  destruct (getitem j "guild_id") as [v|]; [|discriminate].
  exists v. split; [reflexivity|exact H].
Qed.

Lemma channel_id_of_inv : forall j cid,
  channel_id_of j = Return cid ->
  exists v, getitem j "channel_id" = Return v /\ py_int v = Return cid.
Proof.
  intros j cid H. unfold channel_id_of, rbind in H.
  destruct (getitem j "channel_id") as [v|]; [|discriminate].
  exists v. split; [reflexivity|exact H].
Qed.

Lemma user_id_of_inv : forall j uid,
  user_id_of j = Return uid ->
  exists member user v,
    getitem j "member" = Return member /\
    getitem member "user" = Return user /\
    getitem user "id" = Return v /\
    py_int v = Return uid.
Proof.
  intros j uid H. unfold user_id_of, rbind in H.
  destruct (getitem j "member") as [member|] eqn:H1; [|discriminate].
  destruct (getitem member "user") as [user|] eqn:H2; [|discriminate].
  destruct (getitem user "id") as [v|] eqn:H3; [|discriminate].
  exists member, user, v. repeat split; assumption.
Qed.

(** C5.  Whenever [__init__] accepts a payload, the attributes are the
    payload's fields: [name] is [_json["data"]["name"]], [interaction_id]
    is [_json["id"]], [command_id] is [_json["data"]["id"]], the token is
    [_json["token"]], [message] is [None], [sent] is [False], and each of
    [guild], [author], [channel] is the object the SDK resolves from the
    integer ID in the payload, or that integer when the SDK resolves
    nothing; the three IDs are [int] of [_json["guild_id"]],
    [_json["member"]["user"]["id"]] and [_json["channel_id"]]. *)
Theorem init_fields : forall h j b l c,
  __init__ h j b l = Return c ->
  getitem j "token" = Return (token c) /\
  getitem j "id" = Return (interaction_id c) /\
  (exists data,
     getitem j "data" = Return data /\
     getitem data "name" = Return (name c) /\
     getitem data "id" = Return (command_id c)) /\
  message c = None /\
  sent c = false /\
  exists guild_id0 member user user_id channel_id0 gid uid cid,
    getitem j "guild_id" = Return guild_id0 /\
    py_int guild_id0 = Return gid /\
    getitem j "member" = Return member /\
    getitem member "user" = Return user /\
    getitem user "id" = Return user_id /\
    py_int user_id = Return uid /\
    getitem j "channel_id" = Return channel_id0 /\
    py_int channel_id0 = Return cid /\
    guild c = match get_guild b gid with
              | Some g => inl g
              | None => inr gid
              end /\
    author c = match get_guild b gid with
               | Some g => match get_member g uid with
                           | Some m => inl m
                           | None => inr uid
                           end
               | None => inr uid
               end /\
    channel c = match get_guild b gid with
                | Some g => match get_channel g cid with
                            | Some ch => inl ch
                            | None => inr cid
                            end
                | None => inr cid
                end.
Proof.
  intros h j b l c H. unfold __init__, rbind in H.
  destruct (getitem j "token") as [tok|] eqn:Htok; [|discriminate].
  destruct (getitem j "data") as [data|] eqn:Hdata; [|discriminate].
  destruct (getitem data "name") as [nm|] eqn:Hname; [|discriminate].
  destruct (getitem j "id") as [iid|] eqn:Hid; [|discriminate].
  destruct (getitem data "id") as [cid0|] eqn:Hcid; [|discriminate].
  destruct (guild_id_of j) as [gid|] eqn:Hg; [|discriminate].
  apply guild_id_of_inv in Hg. destruct Hg as (guild_id0 & Hg1 & Hg2).
  assert (Hu : exists uid, user_id_of j = Return uid).
  { destruct (user_id_of j); [eexists; reflexivity|].
    exfalso. destruct (get_guild b gid); cbn beta iota in H; discriminate H. }
  destruct Hu as [uid Hu]. rewrite Hu in H.
  assert (Hc : exists cid, channel_id_of j = Return cid).
  { destruct (channel_id_of j); [eexists; reflexivity|].
    exfalso. destruct (get_guild b gid); cbn beta iota in H; discriminate H. }
  destruct Hc as [cid Hc]. rewrite Hc in H.
  apply user_id_of_inv in Hu.
  destruct Hu as (member & user & user_id & Hu1 & Hu2 & Hu3 & Hu4).
  apply channel_id_of_inv in Hc. destruct Hc as (channel_id0 & Hc1 & Hc2).
  destruct (get_guild b gid) as [g|] eqn:Hgg; cbn beta iota in H.
  1: destruct (get_member g uid) eqn:Hm;
     destruct (get_channel g cid) eqn:Hch; cbn beta iota in H.
  all: inversion H; subst c;
    cbn [token interaction_id name command_id message sent guild author channel].
  all: split; [reflexivity|]; split; [reflexivity|];
    split; [exists data; repeat split; auto|];
    split; [reflexivity|]; split; [reflexivity|].
  all: exists guild_id0, member, user, user_id, channel_id0, gid, uid, cid;
    rewrite Hgg, ?Hm, ?Hch; repeat split; assumption || reflexivity.
Qed.

(** The converse: a payload that has the six fields, with IDs [int]
    converts, is accepted. *)
Lemma init_accepts : forall h j b l tok iid data nm cid0 gid uid cid,
  getitem j "token" = Return tok ->
  getitem j "id" = Return iid ->
  getitem j "data" = Return data ->
  getitem data "name" = Return nm ->
  getitem data "id" = Return cid0 ->
  guild_id_of j = Return gid ->
  user_id_of j = Return uid ->
  channel_id_of j = Return cid ->
  is_Return (__init__ h j b l) = true.
Proof.
  intros h j b l tok iid data nm cid0 gid uid cid H1 H2 H3 H4 H5 H6 H7 H8.
  unfold __init__, rbind. rewrite H1, H3, H4, H2, H5, H6, H7, H8.
  destruct (get_guild b gid); [destruct (get_member _ _)|];
    try destruct (get_channel _ _); reflexivity.
Qed.

(** ** The acknowledgement *)

Lemma send_hidden_eq : forall x c evs,
  send_hidden x (c, evs) =
  (http_reply (evs ++ [hidden_request c x]), (c, evs ++ [hidden_request c x])).
Proof.
  intros x c evs. unfold hidden_request. run.
  destruct (http_reply _); reflexivity.
Qed.

Lemma legacy_send_frame : forall x t e am c evs,
  exists rest,
    self_of (_legacy_send x t e am (c, evs)) = c /\
    events_of (_legacy_send x t e am (c, evs)) = evs ++ rest /\
    Forall (delegated c) rest.
Proof.
  intros x t e am c evs. run.
  destruct (embeds_to_dict e).
  2:{ exists []. rewrite app_nil_r. repeat split. constructor. }
  destruct (mentions_to_dict c am).
  2:{ exists []. rewrite app_nil_r. repeat split. constructor. }
  eexists. split; [reflexivity|]. split; [reflexivity|].
  repeat constructor.
Qed.

(** What [respond] does with the gateway.  With [eat=True] it does not
    wait and leaves [message] as it is.  With [eat=False] it waits once
    for a [message] event, with a timeout of 3, and stores in [message]
    the first dispatched message its check accepts; when none is accepted
    before the timeout, the expiry is suppressed: [message] stays as it is
    and the outcome is that of the acknowledgement alone.  The check
    accepts exactly the messages whose author id is the context's author,
    whose channel id is the context's channel, whose type compares equal
    to the integer 20, which no member of [MessageType] does, and whose
    content starts with [</name:command_id>]. *)
Theorem respond_correlates : forall c evs,
  (message (self_of (respond true (c, evs))) = message c /\
   events_of (respond true (c, evs)) = evs ++ [ack_request c true]) /\
  (events_of (respond false (c, evs))
     = evs ++ [ack_request c false; WaitFor "message" 3] /\
   message (self_of (respond false (c, evs)))
     = match find (check c)
               (dispatched (evs ++ [ack_request c false; WaitFor "message" 3]))
       with
       | Some m => Some m
       | None => message c
       end /\
   outcome (respond false (c, evs))
     = match http_reply (evs ++ [ack_request c false]) with
       | Return _ => Return tt
       | Raise e => Raise e
       end) /\
  (forall m,
     check c m = true <->
     msg_author_id m = match author c with
                       | inl a => member_id a
                       | inr n => n
                       end /\
     msg_channel_id m = match channel c with
                        | inl ch => channel_id ch
                        | inr n => n
                        end /\
     type_eq_int (msg_type m) 20 = true /\
     startswith (msg_content m)
       ("</" ++ py_format (name c) ++ ":"
             ++ py_format (command_id c) ++ ">")%string = true).
Proof.
  intros c evs. split; [|split].
  - rewrite respond_eq. cbv zeta iota. split; reflexivity.
  - rewrite respond_eq. cbv zeta iota. unfold correlated.
    rewrite <- app_assoc. cbn [app].
    destruct (find _ _); unfold events_of, self_of, outcome; cbn [fst snd];
      rewrite <- ?app_assoc; cbn [app]; repeat split.
  - intros m. unfold check.
    rewrite !andb_true_iff, !Z.eqb_eq.
    destruct (author c), (channel c); intuition congruence.
Qed.

Lemma check_rejects_member : forall c m member value,
  msg_type m = MessageType member value -> check c m = false.
Proof.
  intros c m member value H. unfold check. rewrite H. cbn [type_eq_int].
  rewrite andb_false_r. reflexivity.
Qed.

(** C6, where the code departs from it.  The check of [respond] compares
    [message.type] with the integer 20; the messages disnake dispatches
    carry a member of [MessageType], which equals no integer.  So when
    every dispatched message is typed that way, the triggering message
    among them, [respond(eat=False)] accepts none: it waits out its
    timeout and leaves [message] as it was, [None] on a fresh context. *)
Theorem respond_misses_typed_messages : forall c evs,
  (forall m,
     In m (dispatched (evs ++ [ack_request c false; WaitFor "message" 3])) ->
     exists member value, msg_type m = MessageType member value) ->
  message (self_of (respond false (c, evs))) = message c /\
  events_of (respond false (c, evs))
  = evs ++ [ack_request c false; WaitFor "message" 3].
Proof.
  intros c evs Htyped. rewrite respond_eq. cbv zeta iota.
  unfold correlated. rewrite <- app_assoc. cbn [app].
  destruct (find _ _) as [m|] eqn:Hf.
  - apply find_some in Hf. destruct Hf as [Hin Hcheck].
    destruct (Htyped m Hin) as (member & value & Hty).
    rewrite (check_rejects_member c m member value Hty) in Hcheck.
    discriminate.
  - unfold self_of, events_of. cbn [fst snd].
    rewrite <- ?app_assoc. split; reflexivity.
Qed.

(** C3.  The flag [sent] is a boolean, [False] in every constructed
    context; [respond] leaves it [True], whatever its argument and
    whatever becomes of the request; and no operation of the class makes
    a [True] flag [False] again.  Of the other attributes, [respond] and
    [send] change [message] at most. *)
Theorem sent_flag :
  (forall h j b l c, __init__ h j b l = Return c -> sent c = false) /\
  (forall eat c evs,
     sent (self_of (respond eat (c, evs))) = true /\
     exists m, self_of (respond eat (c, evs)) = with_message m (with_sent true c)) /\
  (forall c evs,
     sent c = true ->
     (forall eat, sent (self_of (respond eat (c, evs))) = true) /\
     (forall a, self_of (send a (c, evs)) = c) /\
     (forall x, self_of (send_hidden x (c, evs)) = c) /\
     (forall x t e am, self_of (_legacy_send x t e am (c, evs)) = c)).
Proof.
  split; [|split].
  - intros h j b l c H. apply init_fields in H. tauto.
  - intros eat c evs. rewrite respond_eq. cbv zeta.
    destruct eat; [|destruct (correlated _ _)]; split;
      try reflexivity; unfold self_of; cbn [fst snd].
    + exists (message c). reflexivity.
    + eexists. reflexivity.
    + exists (message c). reflexivity.
  - intros c evs Hs. split; [|split; [|split]].
    + intros eat. rewrite respond_eq. cbv zeta.
      destruct eat; [|destruct (correlated _ _)]; reflexivity.
    + intros a. destruct (int_between 2 5 (content a)) eqn:Hl.
      * destruct (send_legacy a (c, evs) Hl) as [msg ->]. reflexivity.
      * destruct (sent_frame a c evs Hl Hs) as (rest & H1 & _). exact H1.
    + intros x. rewrite send_hidden_eq. reflexivity.
    + intros x t e am.
      destruct (legacy_send_frame x t e am c evs) as (rest & H1 & _).
      exact H1.
Qed.

(** ** The followup *)

Lemma acked_requests : forall c evs,
  hidden_warning (acked_self c evs) = hidden_warning c /\
  (forall x, hidden_request (acked_self c evs) x = hidden_request c x) /\
  (forall body w fs,
     followup_request (acked_self c evs) body w fs = followup_request c body w fs) /\
  (forall am, mentions_to_dict (acked_self c evs) am = mentions_to_dict c am) /\
  (forall r, slash_message (acked_self c evs) r = slash_message c r).
Proof.
  intros c evs.
  destruct (acked_self_same c evs) as (Hh & Hi & Ht & Hlg & Hb & Hc).
  unfold hidden_warning, hidden_request, followup_request, mentions_to_dict,
    slash_message.
  rewrite Hh, Hi, Ht, Hlg, Hb, Hc. repeat split.
Qed.

(** The hidden path, on any context that gets past its acknowledgement. *)
Lemma send_hidden_path : forall a c evs,
  int_between 2 5 (content a) = false ->
  acknowledged c evs = true ->
  hidden a = true ->
  send a (c, evs) =
  let evs' := evs ++ respond_events c
                  ++ (if truthy (embeds a) || truthy (embed a)
                      then [hidden_warning c] else [])
                  ++ [hidden_request c (content a)] in
  (match http_reply evs' with
   | Return r => Return (HiddenReply r)
   | Raise e => Raise e
   end, (acked_self c evs, evs')).
Proof.
  intros a c evs Hl Hack Hh.
  rewrite (send_acknowledged a c evs Hl Hack).
  rewrite (sent_hidden a _ _ Hl (acked_self_sent c evs) Hh).
  destruct (acked_requests c evs) as (Hw & Hr & _).
  rewrite Hw, Hr. cbv zeta. rewrite <- !app_assoc. reflexivity.
Qed.

(** C4, as the code has it.  With [hidden=True], the only requests [send]
    records are the acknowledgement of its implicit [respond()] and a
    followup whose body is exactly [{"content": content, "flags": 64}].  Past the legacy
    guard on [content] and the acknowledgement, that followup is recorded,
    once, whatever [embed], [embeds], [file], [files], [tts] and
    [allowed_mentions] are: they appear nowhere in it, and an embed that
    is true in a condition adds one warning to the log and nothing else;
    [send] ends as the followup request does. *)
Theorem send_hidden_body : forall a c evs,
  hidden a = true ->
  (exists delta,
     events_of (send a (c, evs)) = evs ++ delta /\
     forall client args kw,
       In (Post client args kw) delta ->
       Post client args kw = ack_request c false \/
       Post client args kw
       = Post (_http c)
           [PDict [("content", content a); ("flags", PInt 64)]; PBool false;
            interaction_id c; token c] []) /\
  (int_between 2 5 (content a) = false ->
   acknowledged c evs = true ->
   events_of (send a (c, evs))
   = evs ++ respond_events c
         ++ (if truthy (embeds a) || truthy (embed a)
             then [Warning (logger c) "Embed is not supported for `hidden`!"]
             else [])
         ++ [Post (_http c)
               [PDict [("content", content a); ("flags", PInt 64)]; PBool false;
                interaction_id c; token c] []] /\
   outcome (send a (c, evs))
   = match http_reply (events_of (send a (c, evs))) with
     | Return r => Return (HiddenReply r)
     | Raise e => Raise e
     end).
Proof.
  intros a c evs Hh.
  assert (Hpre : forall client args kw,
            In (Post client args kw) (respond_events c) ->
            Post client args kw = ack_request c false).
  { intros client args kw. unfold respond_events.
    destruct (sent c); cbn [In]; intros H; [tauto|].
    destruct H as [H|[H|[H|[]]]]; try discriminate H. symmetry. exact H. }
  split.
  - destruct (int_between 2 5 (content a)) eqn:Hl.
    { destruct (send_legacy a (c, evs) Hl) as [msg ->].
      exists []. rewrite app_nil_r. split; [reflexivity|]. intros ? ? ? []. }
    destruct (acknowledged c evs) eqn:Hack.
    + rewrite (send_hidden_path a c evs Hl Hack Hh). cbv zeta.
      eexists. split; [reflexivity|].
      intros client args kw H. apply in_app_or in H. destruct H as [H|H].
      * left. apply Hpre. exact H.
      * apply in_app_or in H. destruct H as [H|H].
        -- destruct (truthy (embeds a) || truthy (embed a)); cbn [In] in H;
             [destruct H as [H|[]]; discriminate H | destruct H].
        -- right. destruct H as [H|[]]. symmetry. exact H.
    + unfold acknowledged in Hack. apply orb_false_iff in Hack.
      destruct Hack as [Hs Hr].
      destruct (ack_reply c evs) eqn:Hr'; [discriminate|].
      rewrite (send_ack_failed a c evs e Hl Hs Hr').
      exists (respond_events c). split; [reflexivity|].
      intros client args kw H. left. apply Hpre. exact H.
  - intros Hl Hack.
    rewrite (send_hidden_path a c evs Hl Hack Hh). cbv zeta.
    split; reflexivity.
Qed.

Lemma send_rejected_path : forall a c evs,
  int_between 2 5 (content a) = false ->
  acknowledged c evs = true ->
  hidden a = false ->
  rejected a = true ->
  exists msg,
    send a (c, evs)
    = (Raise (IncorrectFormat msg), (acked_self c evs, evs ++ respond_events c)).
Proof.
  intros a c evs Hl Hack Hh Hrej.
  rewrite (send_acknowledged a c evs Hl Hack).
  pose proof (acked_self_sent c evs) as Hs.
  unfold rejected in Hrej.
  destruct (truthy (embed a) && truthy (embeds a)) eqn:He.
  { rewrite (sent_conflict_embed a _ _ Hl Hs Hh He). eexists. reflexivity. }
  destruct (embeds_accepted (embeds_in_effect a)) eqn:Hacc.
  2:{ rewrite (sent_embeds_rejected a _ _ Hl Hs Hh He Hacc).
      eexists. reflexivity. }
  cbn [negb orb] in Hrej.
  rewrite (sent_conflict_file a _ _ Hl Hs Hh He Hacc Hrej).
  eexists. reflexivity.
Qed.

Lemma send_checked_path : forall a c evs ds am,
  int_between 2 5 (content a) = false ->
  acknowledged c evs = true ->
  hidden a = false ->
  rejected a = false ->
  embeds_to_dict (embeds_in_effect a) = Return ds ->
  mentions_to_dict c (allowed_mentions a) = Return am ->
  send a (c, evs) =
  let c' := acked_self c evs in
  let body := message_body (content a) (tts a) ds am in
  let evs1 := evs ++ respond_events c
                  ++ [followup_request c body (wait a) (files_in_effect a)] in
  match http_reply evs1 with
  | Raise e => (Raise e, (c', evs1))
  | Return r =>
      match slash_message c r with
      | Raise e => (Raise e, (c', evs1))
      | Return smsg =>
          (Return (Sent smsg),
           (c', evs1 ++ (if delay_given (delete_after a)
                         then [DeleteTask smsg (delete_after a)]
                         else [])))
      end
  end.
Proof.
  intros a c evs ds am Hl Hack Hh Hrej Hds Ham.
  rewrite (send_acknowledged a c evs Hl Hack).
  pose proof (acked_self_sent c evs) as Hs.
  unfold rejected in Hrej.
  apply orb_false_iff in Hrej. destruct Hrej as [Hrej Hf].
  apply orb_false_iff in Hrej. destruct Hrej as [He Hacc].
  apply negb_false_iff in Hacc.
  rewrite (sent_checked a _ _ Hl Hs Hh He Hacc Hf).
  destruct (acked_requests c evs) as (_ & _ & Hr & Hm & Hsm).
  rewrite Hds, Hm, Ham. cbv beta iota zeta. rewrite !Hr.
  rewrite <- !app_assoc.
  destruct (http_reply _) as [r|]; [|reflexivity].
  rewrite Hsm. reflexivity.
Qed.

Lemma posted_bodies_delete : forall (b : bool) m d,
  posted_bodies (if b then [DeleteTask m d] else []) = [].
Proof. intros [] m d; reflexivity. Qed.

(** A call that passes the checks records its followup request, and
    after it at most the deletion task. *)
Lemma send_checked_trace : forall a c evs ds am,
  int_between 2 5 (content a) = false ->
  acknowledged c evs = true ->
  hidden a = false ->
  rejected a = false ->
  embeds_to_dict (embeds_in_effect a) = Return ds ->
  mentions_to_dict c (allowed_mentions a) = Return am ->
  exists tail,
    events_of (send a (c, evs))
    = evs ++ respond_events c
          ++ followup_request c (message_body (content a) (tts a) ds am)
               (wait a) (files_in_effect a) :: tail /\
    posted_bodies tail = [].
Proof.
  intros a c evs ds am Hl Hack Hh Hrej Hds Ham.
  rewrite (send_checked_path a c evs ds am Hl Hack Hh Hrej Hds Ham).
  cbv zeta. destruct (http_reply _) as [r|].
  - destruct (slash_message c r) as [smsg|].
    + eexists. split.
      * unfold events_of. cbn [snd]. rewrite <- !app_assoc. reflexivity.
      * apply posted_bodies_delete.
    + exists []. split; reflexivity.
  - exists []. split; reflexivity.
Qed.

Lemma is_IncorrectFormat_legacy : forall a st,
  int_between 2 5 (content a) = true ->
  is_IncorrectFormat (outcome (send a st)) = true.
Proof.
  intros a st Hl. destruct (send_legacy a st Hl) as [msg ->]. reflexivity.
Qed.

(** C7.  Every request goes out through the context's own HTTP client,
    by [post], with the context's interaction id and token.  [respond]
    records exactly one request, whose body is [{"type": 2}] under
    [eat=True] and [{"type": 5}] under [eat=False], followed at most by
    its wait on the gateway; [send_hidden] records exactly the request
    carrying its body.  Everything [send] and [_legacy_send] record is a
    delegated call: a [post] on that client with that id and token, a
    warning on the context's logger, the gateway wait, or the deletion
    task of the returned message, which holds the same client and token.
    And they do post: past the legacy guard and the acknowledgement, a
    hidden [send] records the request carrying the hidden body, and a
    [send] that passes the checks and builds its body records the request
    carrying that body, [wait] and the files; [_legacy_send] records the
    request carrying the body it builds. *)
Theorem requests_delegated : forall c evs,
  (forall eat,
     events_of (respond eat (c, evs))
     = evs ++ Post (_http c)
                [PDict [("type", PInt (if eat then 2 else 5))]; PBool false;
                 interaction_id c; token c; PBool true] []
              :: (if eat then [] else [WaitFor "message" 3])) /\
  (forall x,
     events_of (send_hidden x (c, evs))
     = evs ++ [Post (_http c)
                 [PDict [("content", x); ("flags", PInt 64)]; PBool false;
                  interaction_id c; token c] []]) /\
  (forall a, exists delta,
     events_of (send a (c, evs)) = evs ++ delta /\
     Forall (delegated c) delta) /\
  (forall a,
     int_between 2 5 (content a) = false ->
     acknowledged c evs = true ->
     hidden a = true ->
     events_of (send a (c, evs))
     = evs ++ respond_events c
           ++ (if truthy (embeds a) || truthy (embed a)
               then [hidden_warning c] else [])
           ++ [Post (_http c)
                 [PDict [("content", content a); ("flags", PInt 64)]; PBool false;
                  interaction_id c; token c] []]) /\
  (forall a ds am,
     int_between 2 5 (content a) = false ->
     acknowledged c evs = true ->
     hidden a = false ->
     rejected a = false ->
     embeds_to_dict (embeds_in_effect a) = Return ds ->
     mentions_to_dict c (allowed_mentions a) = Return am ->
     exists tail,
       events_of (send a (c, evs))
       = evs ++ respond_events c
             ++ Post (_http c)
                  [PDict [("content", content a); ("tts", tts a);
                          ("embeds", PList ds); ("allowed_mentions", am)];
                   wait a; interaction_id c; token c]
                  [("files", files_in_effect a)] :: tail /\
       posted_bodies tail = []) /\
  (forall x t e am, exists delta,
     events_of (_legacy_send x t e am (c, evs)) = evs ++ delta /\
     Forall (delegated c) delta) /\
  (forall x t e am0 ds am,
     embeds_to_dict e = Return ds ->
     mentions_to_dict c am0 = Return am ->
     events_of (_legacy_send x t e am0 (c, evs))
     = evs ++ [Post (_http c)
                 [PDict [("content", x); ("tts", t);
                         ("embeds", PList ds); ("allowed_mentions", am)];
                  PBool false; interaction_id c; token c] []]).
Proof.
  intros c evs. split; [|split; [|split; [|split; [|split; [|split]]]]].
  - intros eat. rewrite respond_eq. cbv zeta. unfold ack_request, correlated.
    destruct eat; [reflexivity|].
    destruct (find _ _); unfold events_of; cbn [snd];
      rewrite <- app_assoc; reflexivity.
  - intros x. rewrite send_hidden_eq. reflexivity.
  - intros a. destruct (int_between 2 5 (content a)) eqn:Hl.
    + destruct (send_legacy a (c, evs) Hl) as [msg ->].
      exists []. rewrite app_nil_r. split; [reflexivity|constructor].
    + destruct (send_frame a c evs Hl) as (rest & _ & He & Hd).
      exists (respond_events c ++ rest). split; [exact He|].
      apply Forall_app. split; [apply delegated_respond_events|exact Hd].
  - intros a Hl Hack Hh.
    rewrite (send_hidden_path a c evs Hl Hack Hh). reflexivity.
  - intros a ds am Hl Hack Hh Hrej Hds Ham.
    exact (send_checked_trace a c evs ds am Hl Hack Hh Hrej Hds Ham).
  - intros x t e am.
    destruct (legacy_send_frame x t e am c evs) as (rest & _ & He & Hd).
    exists rest. split; assumption.
  - intros x t e am0 ds am Hds Ham. run. rewrite Hds, Ham. reflexivity.
Qed.

Lemma conflict_rejected : forall a,
  truthy (embed a) && truthy (embeds a) = true \/
  truthy (file a) && truthy (files a) = true ->
  rejected a = true.
Proof.
  intros a Hconf. unfold rejected.
  destruct Hconf as [H|H]; rewrite H; [reflexivity | apply orb_true_r].
Qed.

(** C1, as the code has it.  With [hidden] false, a call in which [embed]
    and [embeds] are both true in a condition, or [file] and [files] are,
    records no followup request: the trace grows by nothing but what the
    implicit [respond()] records, so no body is built or posted; and
    unless that acknowledgement itself failed, [send] raises
    [IncorrectFormat]. *)
Theorem send_rejects_conflict : forall a c evs,
  hidden a = false ->
  truthy (embed a) && truthy (embeds a) = true \/
  truthy (file a) && truthy (files a) = true ->
  events_of (send a (c, evs))
  = evs ++ (if int_between 2 5 (content a) then [] else respond_events c) /\
  (acknowledged c evs = true ->
   is_IncorrectFormat (outcome (send a (c, evs))) = true).
Proof.
  intros a c evs Hh Hconf.
  pose proof (conflict_rejected a Hconf) as Hrej.
  destruct (int_between 2 5 (content a)) eqn:Hl.
  { split; [|intros _; apply is_IncorrectFormat_legacy; exact Hl].
    destruct (send_legacy a (c, evs) Hl) as [msg ->].
    rewrite app_nil_r. reflexivity. }
  destruct (acknowledged c evs) eqn:Hack.
  - destruct (send_rejected_path a c evs Hl Hack Hh Hrej) as [msg ->].
    split; [reflexivity|]. intros _. reflexivity.
  - split; [|discriminate].
    unfold acknowledged in Hack. apply orb_false_iff in Hack.
    destruct Hack as [Hs Hr].
    destruct (ack_reply c evs) eqn:Hr'; [discriminate|].
    rewrite (send_ack_failed a c evs e Hl Hs Hr'). reflexivity.
Qed.

(** C10, as the code has it.  When [send] is entered with [sent] false
    and a [content] that passes the legacy guard, it first warns and runs
    [respond()]: the acknowledgement [{"type": 5}] is recorded and [sent]
    is [True] from then on, whatever follows.  So when the call then
    fails on conflicting [embed]/[embeds] or [file]/[files], nothing is
    undone: [send] raises [IncorrectFormat] with [sent] still [True] and
    the acknowledgement posted, and nothing after it. *)
Theorem send_acknowledges_first : forall a c evs,
  sent c = false ->
  int_between 2 5 (content a) = false ->
  sent (self_of (send a (c, evs))) = true /\
  (exists rest,
     events_of (send a (c, evs))
     = evs ++ [respond_warning c;
               Post (_http c)
                 [PDict [("type", PInt 5)]; PBool false;
                  interaction_id c; token c; PBool true] [];
               WaitFor "message" 3] ++ rest) /\
  (hidden a = false ->
   truthy (embed a) && truthy (embeds a) = true \/
   truthy (file a) && truthy (files a) = true ->
   is_Return (ack_reply c evs) = true ->
   is_IncorrectFormat (outcome (send a (c, evs))) = true /\
   events_of (send a (c, evs))
   = evs ++ [respond_warning c;
             Post (_http c)
               [PDict [("type", PInt 5)]; PBool false;
                interaction_id c; token c; PBool true] [];
             WaitFor "message" 3]).
Proof.
  intros a c evs Hs Hl.
  destruct (send_frame a c evs Hl) as (rest & Hself & Hev & _).
  assert (Hre : respond_events c
                = [respond_warning c; ack_request c false; WaitFor "message" 3]).
  { unfold respond_events. rewrite Hs. reflexivity. }
  split; [|split].
  - rewrite Hself. apply acked_self_sent.
  - exists rest. rewrite Hev, Hre. reflexivity.
  - intros Hh Hconf Hr.
    assert (Hack : acknowledged c evs = true).
    { unfold acknowledged. rewrite Hr. apply orb_true_r. }
    destruct (send_rejected_path a c evs Hl Hack Hh (conflict_rejected a Hconf))
      as [msg ->].
    unfold events_of, outcome. cbn [fst snd]. rewrite Hre. split; reflexivity.
Qed.

Lemma embeds_to_dict_list : forall xs,
  embeds_to_dict (PList xs) = map_result to_dict xs.
Proof. intros [|x xs]; reflexivity. Qed.

(** C2, as the code has it.  With [hidden] false, a call that passes the
    legacy guard and the checks and gets past its acknowledgement records
    one followup request, on the context's client: its body has exactly
    the keys [content], [tts], [embeds], [allowed_mentions], in that
    order, holding [content] and [tts] as given; under [embeds] the
    [to_dict()] of [embed] alone when [embed] is true in a condition,
    else of each element of [embeds] when that is a non-empty list, else
    (no embed, an embed with nothing set, an empty [embeds]) the empty
    list; under [allowed_mentions] the [to_dict()] of the argument when
    it is true in a condition, else of the bot's default when that is,
    else the empty dict. *)
Theorem send_body : forall a c evs ds am,
  hidden a = false ->
  int_between 2 5 (content a) = false ->
  rejected a = false ->
  acknowledged c evs = true ->
  embeds_to_dict (embeds_in_effect a) = Return ds ->
  mentions_to_dict c (allowed_mentions a) = Return am ->
  (exists body tail,
     events_of (send a (c, evs))
     = evs ++ respond_events c
           ++ Post (_http c) [body; wait a; interaction_id c; token c]
                [("files", files_in_effect a)] :: tail /\
     posted_bodies tail = [] /\
     body = PDict [("content", content a); ("tts", tts a);
                   ("embeds", PList ds); ("allowed_mentions", am)] /\
     keys body = ["content"; "tts"; "embeds"; "allowed_mentions"]) /\
  (if truthy (embed a)
   then exists d, to_dict (embed a) = Return d /\ ds = [d]
   else if truthy (embeds a)
        then forall xs, embeds a = PList xs -> map_result to_dict xs = Return ds
        else ds = []) /\
  (if truthy (allowed_mentions a)
   then to_dict (allowed_mentions a) = Return am
   else if truthy (bot_allowed_mentions (bot c))
        then to_dict (bot_allowed_mentions (bot c)) = Return am
        else am = PDict []).
Proof.
  intros a c evs ds am Hh Hl Hrej Hack Hds Ham.
  split; [|split].
  - destruct (send_checked_trace a c evs ds am Hl Hack Hh Hrej Hds Ham)
      as (tail & He & Hp).
    eexists. exists tail. split; [exact He|]. split; [exact Hp|].
    split; reflexivity.
  - unfold embeds_in_effect in Hds.
    destruct (truthy (embed a)).
    + rewrite embeds_to_dict_list in Hds. cbn [map_result] in Hds.
      destruct (to_dict (embed a)) as [d|]; [|discriminate].
      exists d. split; [reflexivity|]. inversion Hds. reflexivity.
    + unfold embeds_to_dict in Hds.
      destruct (truthy (embeds a)).
      * intros xs Hxs. rewrite Hxs in Hds. exact Hds.
      * inversion Hds. reflexivity.
  - unfold mentions_to_dict in Ham.
    destruct (truthy (allowed_mentions a)); [exact Ham|].
    destruct (truthy (bot_allowed_mentions (bot c))); [exact Ham|].
    inversion Ham. reflexivity.
Qed.

Lemma send_ignores_false_embeds : forall a st,
  truthy (embeds a) = false ->
  send a st = send (set_embed (embed a) PNone a) st.
Proof.
  intros a st H. unfold send, embeds_to_dict.
  cbn [set_embed content wait embed embeds tts file files allowed_mentions
       hidden delete_after].
  rewrite H. cbn [truthy]. rewrite andb_false_r.
  destruct (truthy (embed a)); [reflexivity|].
  rewrite H. reflexivity.
Qed.

(** C8, as the code has it.  With [hidden] false and the acknowledgement
    past, [send] raises [IncorrectFormat] when [embeds] is true in a
    condition and not a list, and when it is a list of more than 10
    elements.  A list of at most 10 is accepted when [embed] is not given
    as well: if the call passes the legacy guard and the file check, the
    followup body carries the [to_dict()] of its elements.  An [embeds]
    that is false in a condition, list or not, is not checked: the call
    runs as if [embeds] had been left out. *)
Theorem send_embeds_check : forall a c evs,
  hidden a = false ->
  acknowledged c evs = true ->
  (truthy (embeds a) = true ->
   isinstance_list (embeds a) = false ->
   is_IncorrectFormat (outcome (send a (c, evs))) = true) /\
  (forall xs,
     embeds a = PList xs ->
     10 < Z.of_nat (List.length xs) ->
     is_IncorrectFormat (outcome (send a (c, evs))) = true) /\
  (forall xs ds am,
     embeds a = PList xs ->
     Z.of_nat (List.length xs) <= 10 ->
     truthy (embed a) = false ->
     int_between 2 5 (content a) = false ->
     truthy (file a) && truthy (files a) = false ->
     map_result to_dict xs = Return ds ->
     mentions_to_dict c (allowed_mentions a) = Return am ->
     exists tail,
       events_of (send a (c, evs))
       = evs ++ respond_events c
             ++ Post (_http c)
                  [PDict [("content", content a); ("tts", tts a);
                          ("embeds", PList ds); ("allowed_mentions", am)];
                   wait a; interaction_id c; token c]
                  [("files", files_in_effect a)] :: tail /\
       posted_bodies tail = []) /\
  (truthy (embeds a) = false ->
   send a (c, evs) = send (set_embed (embed a) PNone a) (c, evs)).
Proof.
  intros a c evs Hh Hack.
  assert (Hrejected : rejected a = true ->
                      is_IncorrectFormat (outcome (send a (c, evs))) = true).
  { intros Hrej. destruct (int_between 2 5 (content a)) eqn:Hl.
    - apply is_IncorrectFormat_legacy. exact Hl.
    - destruct (send_rejected_path a c evs Hl Hack Hh Hrej) as [msg ->].
      reflexivity. }
  split; [|split; [|split]].
  - intros Ht Hnl. apply Hrejected. unfold rejected, embeds_accepted, embeds_in_effect.
    rewrite Ht. destruct (truthy (embed a)); [reflexivity|].
    cbn [andb orb]. rewrite Ht.
    destruct (embeds a); try reflexivity. discriminate Hnl.
  - intros xs Hxs Hlen. apply Hrejected.
    unfold rejected, embeds_accepted, embeds_in_effect. rewrite Hxs.
    assert (Ht : truthy (PList xs) = true).
    { destruct xs; [cbn in Hlen; lia | reflexivity]. }
    rewrite Ht. destruct (truthy (embed a)); [reflexivity|].
    cbn [andb orb]. rewrite Ht. cbn [negb orb].
    apply Z.leb_gt in Hlen. rewrite Hlen. reflexivity.
  - intros xs ds am Hxs Hlen He Hl Hf Hds Ham.
    assert (Hrej : rejected a = false).
    { unfold rejected, embeds_accepted, embeds_in_effect.
      rewrite He, Hf, Hxs. cbn [andb orb].
      apply Z.leb_le in Hlen. rewrite Hlen, orb_true_r. reflexivity. }
    assert (Hds' : embeds_to_dict (embeds_in_effect a) = Return ds).
    { unfold embeds_in_effect. rewrite He, Hxs, embeds_to_dict_list. exact Hds. }
    exact (send_checked_trace a c evs ds am Hl Hack Hh Hrej Hds' Ham).
  - intros Ht. apply send_ignores_false_embeds. exact Ht.
Qed.

(** C9, as the code has it.  For every embed [e] that is true in a
    condition, [send(embed=e)] and [send(embeds=[e])] run alike: the same
    calls are recorded, with the same bodies, and the outcome is the
    same; and so do [send(file=f)] and [send(files=[f])] for every file
    [f]: the client receives the same [files].  This holds whatever the
    other arguments are. *)
Theorem send_singular_plural : forall a st e fp,
  truthy e = true ->
  send (set_embed e PNone a) st = send (set_embed PNone (PList [e]) a) st /\
  send (set_file (PFile fp) PNone a) st
  = send (set_file PNone (PList [PFile fp]) a) st.
Proof.
  intros a st e fp He. split.
  - unfold send.
    cbn [set_embed content wait embed embeds tts file files allowed_mentions
         hidden delete_after].
    rewrite He. reflexivity.
  - unfold send.
    cbn [set_file content wait embed embeds tts file files allowed_mentions
         hidden delete_after].
    reflexivity.
Qed.

(** ** Further properties: construction *)

(** [__init__] returns exactly on the payloads that have the fields it
    reads with IDs [int] converts: acceptance depends on the payload alone,
    not on the client, the logger or what the bot has cached. *)
Theorem init_accepts_iff : forall h j b l,
  is_Return (__init__ h j b l) = payload_ok j.
Proof.
  intros h j b l. unfold payload_ok.
  change (v <~ getitem j "guild_id" ;; py_int v) with (guild_id_of j).
  change (v <~ getitem j "channel_id" ;; py_int v) with (channel_id_of j).
  change (member <~ getitem j "member" ;; user <~ getitem member "user" ;;
          v <~ getitem user "id" ;; py_int v) with (user_id_of j).
  unfold __init__, rbind.
  destruct (getitem j "token"); [|reflexivity].
  destruct (getitem j "data") as [data|]; [|reflexivity].
  destruct (getitem data "name"); [|reflexivity].
  destruct (getitem j "id"); [|reflexivity].
  destruct (getitem data "id"); [|reflexivity].
  destruct (guild_id_of j) as [gid|]; [|reflexivity].
  destruct (user_id_of j) as [uid|], (channel_id_of j) as [cid|],
    (get_guild b gid) as [g|]; try reflexivity.
  destruct (get_member g uid), (get_channel g cid); reflexivity.
Qed.

(** A payload whose fields up to [guild_id] are there but which has no
    [guild_id], as for a command used in a direct message, makes
    [__init__] raise [KeyError('guild_id')]: no context is built, whatever
    the payload holds besides. *)
Theorem init_without_guild : forall h kvs b l tok data nm iid cid0,
  lookup "token" kvs = Some tok ->
  lookup "data" kvs = Some data ->
  getitem data "name" = Return nm ->
  lookup "id" kvs = Some iid ->
  getitem data "id" = Return cid0 ->
  lookup "guild_id" kvs = None ->
  __init__ h (PDict kvs) b l = Raise (KeyError "guild_id").
Proof.
  intros h kvs b l tok data nm iid cid0 Ht Hd Hn Hi Hc Hg.
  unfold __init__, guild_id_of, rbind, getitem at 1 2 4 5 7.
  rewrite Ht, Hd, Hn, Hi, Hc, Hg. reflexivity.
Qed.

Lemma init_inv : forall h j b l c,
  __init__ h j b l = Return c ->
  exists tok nm iid cid0 g a ch,
    c = {| token := tok; message := None;
           name := nm; command := nm; invoked_with := nm;
           subcommand_name := PNone; invoked_subcommand := PNone;
           subcommand_passed := PNone;
           subcommand_group := PNone; invoked_subcommand_group := PNone;
           subcommand_group_passed := PNone;
           interaction_id := iid; command_id := cid0;
           _http := h; bot := b; logger := l; sent := false;
           guild := g; author := a; channel := ch |}.
Proof.
  intros h j b l c H. unfold __init__, rbind in H.
  destruct (getitem j "token") as [tok|]; [|discriminate].
  destruct (getitem j "data") as [data|]; [|discriminate].
  destruct (getitem data "name") as [nm|]; [|discriminate].
  destruct (getitem j "id") as [iid|]; [|discriminate].
  destruct (getitem data "id") as [cid0|]; [|discriminate].
  destruct (guild_id_of j) as [gid|]; [|discriminate].
  destruct (user_id_of j) as [uid|], (channel_id_of j) as [cid|],
    (get_guild b gid) as [g|]; try discriminate.
  1: destruct (get_member g uid), (get_channel g cid).
  all: inversion H; repeat eexists.
Qed.

(** In every context [__init__] returns, [command] and [invoked_with] are
    the command's name, the six subcommand attributes are [None], and
    [_http], [bot] and [logger] are the objects passed in. *)
Theorem init_other_attributes : forall h j b l c,
  __init__ h j b l = Return c ->
  command c = name c /\ invoked_with c = name c /\
  subcommand_name c = PNone /\ invoked_subcommand c = PNone /\
  subcommand_passed c = PNone /\
  subcommand_group c = PNone /\ invoked_subcommand_group c = PNone /\
  subcommand_group_passed c = PNone /\
  _http c = h /\ bot c = b /\ logger c = l.
Proof.
  intros h j b l c H.
  destruct (init_inv h j b l c H) as (tok & nm & iid & cid0 & g & a & ch & ->).
  repeat split.
Qed.

(** ** Further properties: what the operations keep *)

Lemma acked_self_identity : forall c evs, same_identity c (acked_self c evs).
Proof.
  intros c evs. unfold acked_self, same_identity.
  destruct (sent c); [|destruct (correlated _ _)]; repeat split.
Qed.

(** No operation changes an attribute other than [sent] and [message]:
    the token, the names and ids, the collaborators and the resolved
    guild, author and channel stay as [__init__] set them, whatever the
    arguments and whatever the outcome. *)
Theorem identity_preserved : forall c evs,
  (forall eat, same_identity c (self_of (respond eat (c, evs)))) /\
  (forall a, same_identity c (self_of (send a (c, evs)))) /\
  (forall x, same_identity c (self_of (send_hidden x (c, evs)))) /\
  (forall x t e am, same_identity c (self_of (_legacy_send x t e am (c, evs)))).
Proof.
  intros c evs. split; [|split; [|split]].
  - intros eat. rewrite respond_eq. cbv zeta. unfold same_identity.
    destruct eat; [|destruct (correlated _ _)]; repeat split.
  - intros a. destruct (int_between 2 5 (content a)) eqn:Hl.
    + destruct (send_legacy a (c, evs) Hl) as [msg ->].
      unfold same_identity. repeat split.
    + destruct (send_frame a c evs Hl) as (rest & -> & _).
      apply acked_self_identity.
  - intros x. rewrite send_hidden_eq. unfold same_identity. repeat split.
  - intros x t e am.
    destruct (legacy_send_frame x t e am c evs) as (rest & -> & _).
    unfold same_identity. repeat split.
Qed.


(** ** Further properties: the legacy guard and the acknowledgement *)

(** The guard of [send] against the pre-1.0.9 usage fires exactly on an
    integer [content] from 2 to 5, bounds included, and on no boolean,
    string or other value; when it fires, [send] raises [IncorrectFormat]
    at once: nothing is recorded and the context is untouched. *)
Theorem send_legacy_guard : forall a st,
  (int_between 2 5 (content a) = true <->
   exists n, content a = PInt n /\ 2 <= n <= 5) /\
  (int_between 2 5 (content a) = true ->
   send a st
   = (Raise (IncorrectFormat
        "`.send` Method is rewritten at Release 1.0.9. Please read the docs and fix all the usages."),
      st)).
Proof.
  intros a st. split.
  - unfold int_between. split.
    + destruct (content a) as [|b|n| | | | | | |]; try discriminate.
      * destruct b; discriminate.
      * intros H. apply andb_true_iff in H. destruct H as [H1 H2].
        exists n. split; [reflexivity|]. lia.
    + intros (n & -> & Hn). apply andb_true_iff. split; lia.
  - intros H. unfold send. rewrite H. reflexivity.
Qed.

Lemma acks_app : forall l1 l2, acks (l1 ++ l2) = (acks l1 + acks l2)%nat.
Proof.
  intros l1 l2. unfold acks. rewrite filter_app, length_app. reflexivity.
Qed.

Lemma posted_bodies_app : forall l1 l2,
  posted_bodies (l1 ++ l2) = posted_bodies l1 ++ posted_bodies l2.
Proof.
  induction l1 as [|e l1 IH]; intros l2; [reflexivity|].
  destruct e as [h args kw| | |]; cbn [app posted_bodies]; try apply IH.
  destruct args; [apply IH|]. cbn [app]. rewrite IH. reflexivity.
Qed.

Lemma acks_respond_events : forall c,
  acks (respond_events c) = if sent c then 0%nat else 1%nat.
Proof.
  intros c. unfold respond_events. destruct (sent c); reflexivity.
Qed.

(** On an acknowledged context [send] records no acknowledgement and at
    most one request. *)
Lemma sent_frame_posts : forall a c evs,
  int_between 2 5 (content a) = false ->
  sent c = true ->
  exists rest,
    events_of (send a (c, evs)) = evs ++ rest /\
    acks rest = 0%nat /\
    (List.length (posted_bodies rest) <= 1)%nat.
Proof.
  intros a c evs Hl Hs.
  destruct (hidden a) eqn:Hh.
  { rewrite (sent_hidden a c evs Hl Hs Hh). cbv zeta.
    eexists. split; [reflexivity|].
    destruct (truthy (embeds a) || truthy (embed a)); split;
      cbn; auto. }
  destruct (truthy (embed a) && truthy (embeds a)) eqn:He.
  { rewrite (sent_conflict_embed a c evs Hl Hs Hh He).
    exists []. rewrite app_nil_r. repeat split. cbn. lia. }
  destruct (embeds_accepted (embeds_in_effect a)) eqn:Hacc.
  2:{ rewrite (sent_embeds_rejected a c evs Hl Hs Hh He Hacc).
      exists []. rewrite app_nil_r. repeat split. cbn. lia. }
  destruct (truthy (file a) && truthy (files a)) eqn:Hf.
  { rewrite (sent_conflict_file a c evs Hl Hs Hh He Hacc Hf).
    exists []. rewrite app_nil_r. repeat split. cbn. lia. }
  rewrite (sent_checked a c evs Hl Hs Hh He Hacc Hf).
  destruct (embeds_to_dict _).
  2:{ exists []. rewrite app_nil_r. repeat split. cbn. lia. }
  destruct (mentions_to_dict _ _).
  2:{ exists []. rewrite app_nil_r. repeat split. cbn. lia. }
  cbv zeta. destruct (http_reply _) as [r|].
  - destruct (slash_message c r) as [smsg|].
    + eexists. split.
      * unfold events_of. cbn [snd]. rewrite <- app_assoc. reflexivity.
      * destruct (delay_given (delete_after a)); split; cbn; auto.
    + eexists. split; [reflexivity|]. split; cbn; auto.
  - eexists. split; [reflexivity|]. split; cbn; auto.
Qed.

(** [send] acknowledges at most once, and only an unacknowledged context:
    what a call records holds one acknowledgement when [sent] was False
    and the legacy guard let the call through, none otherwise, and never
    more than one request besides. *)
Theorem send_acks : forall a c evs,
  exists delta,
    events_of (send a (c, evs)) = evs ++ delta /\
    acks delta = (if int_between 2 5 (content a) || sent c then 0 else 1)%nat /\
    (List.length (posted_bodies delta) <= acks delta + 1)%nat.
Proof.
  intros a c evs.
  destruct (int_between 2 5 (content a)) eqn:Hl.
  { destruct (send_legacy a (c, evs) Hl) as [msg ->].
    exists []. rewrite app_nil_r. repeat split. cbn. lia. }
  cbn [orb].
  destruct (acknowledged c evs) eqn:Hack.
  - rewrite (send_acknowledged a c evs Hl Hack).
    destruct (sent_frame_posts a (acked_self c evs) (evs ++ respond_events c) Hl
                (acked_self_sent c evs)) as (rest & He & Ha & Hp).
    exists (respond_events c ++ rest). split; [|split].
    + rewrite He, <- app_assoc. reflexivity.
    + rewrite acks_app, Ha, acks_respond_events, Nat.add_0_r. reflexivity.
    + rewrite posted_bodies_app, length_app, acks_app, Ha, acks_respond_events.
      unfold respond_events. destruct (sent c); cbn; lia.
  - unfold acknowledged in Hack. apply orb_false_iff in Hack.
    destruct Hack as [Hs Hr].
    destruct (ack_reply c evs) eqn:Hr'; [discriminate|].
    rewrite (send_ack_failed a c evs e Hl Hs Hr').
    exists (respond_events c). split; [reflexivity|].
    rewrite acks_respond_events. unfold respond_events. rewrite Hs.
    split; [reflexivity|]. cbn. lia.
Qed.

(** Once [respond] has run, or a first [send] has got past the legacy
    guard, a later [send] records no acknowledgement, whatever became of
    the earlier call: the implicit [respond()] of [send] never repeats an
    acknowledgement. *)
Theorem send_never_acknowledges_twice : forall a c evs,
  (forall eat, exists delta,
     events_of (send a (snd (respond eat (c, evs))))
     = events_of (respond eat (c, evs)) ++ delta /\
     acks delta = 0%nat) /\
  (forall a0,
     int_between 2 5 (content a0) = false ->
     exists delta,
       events_of (send a (snd (send a0 (c, evs))))
       = events_of (send a0 (c, evs)) ++ delta /\
       acks delta = 0%nat).
Proof.
  intros a c evs.
  assert (Hgen : forall c' evs', sent c' = true ->
            exists delta, events_of (send a (c', evs')) = evs' ++ delta /\
                          acks delta = 0%nat).
  { intros c' evs' Hs.
    destruct (int_between 2 5 (content a)) eqn:Hl.
    - destruct (send_legacy a (c', evs') Hl) as [msg ->].
      exists []. rewrite app_nil_r. split; reflexivity.
    - destruct (sent_frame_posts a c' evs' Hl Hs) as (delta & He & Ha & _).
      exists delta. split; assumption. }
  split.
  - intros eat.
    destruct (respond eat (c, evs)) as [r [c' evs']] eqn:Hrun.
    assert (Hs : sent c' = true).
    { rewrite respond_eq in Hrun. cbv zeta in Hrun.
      destruct eat; [|destruct (correlated _ _)]; inversion Hrun; reflexivity. }
    apply (Hgen c' evs' Hs).
  - intros a0 Hl.
    destruct (send_frame a0 c evs Hl) as (rest & Hself & _).
    destruct (send a0 (c, evs)) as [r [c' evs']] eqn:Hrun.
    unfold self_of in Hself. cbn [fst snd] in Hself.
    apply (Hgen c' evs'). rewrite Hself. apply acked_self_sent.
Qed.

(** When [send] has to acknowledge first and the acknowledgement request
    fails, [send] raises the client's exception, whatever the arguments:
    hidden or not, valid or conflicting, they are not looked at and no
    followup is recorded.  The context is left marked as sent. *)
Theorem send_ack_failure : forall a c evs e,
  sent c = false ->
  int_between 2 5 (content a) = false ->
  ack_reply c evs = Raise e ->
  outcome (send a (c, evs)) = Raise e /\
  sent (self_of (send a (c, evs))) = true /\
  events_of (send a (c, evs))
  = evs ++ [respond_warning c;
            Post (_http c)
              [PDict [("type", PInt 5)]; PBool false;
               interaction_id c; token c; PBool true] [];
            WaitFor "message" 3].
Proof.
  intros a c evs e Hs Hl Hr.
  rewrite (send_ack_failed a c evs e Hl Hs Hr).
  unfold outcome, self_of, events_of. cbn [fst snd].
  split; [reflexivity|]. split; [apply acked_self_sent|].
  unfold respond_events. rewrite Hs. reflexivity.
Qed.

(** ** Further properties: what [send] returns and how it fails *)

(** When a call passes the checks and the followup request succeeds,
    what [send] does next depends on the channel the context holds.  With
    a text channel or a bare channel id, it returns a [SlashMessage] built
    from the client's reply, on the context's client and token, in that
    channel or in an [Object] around the id, and starts a deletion task
    for the message exactly when [delete_after] is true in a condition
    (so not for [None], 0 or 0.0).  With a cached channel that is not a
    text channel, building the [Object] raises [TypeError]: the followup
    has been posted, nothing is returned and no task is started.  When
    the request itself fails, [send] raises the client's exception and
    starts no task. *)
Theorem send_returns_message : forall a c evs ds am,
  hidden a = false ->
  int_between 2 5 (content a) = false ->
  rejected a = false ->
  acknowledged c evs = true ->
  embeds_to_dict (embeds_in_effect a) = Return ds ->
  mentions_to_dict c (allowed_mentions a) = Return am ->
  let request :=
    Post (_http c)
      [PDict [("content", content a); ("tts", tts a); ("embeds", PList ds);
              ("allowed_mentions", am)];
       wait a; interaction_id c; token c]
      [("files", files_in_effect a)] in
  let evs1 := evs ++ respond_events c ++ [request] in
  let returned r where_ :=
    let smsg := {| sm_data := r; sm_channel := where_;
                   sm_http := _http c; sm_interaction_token := token c |} in
    outcome (send a (c, evs)) = Return (Sent smsg) /\
    events_of (send a (c, evs))
    = evs1 ++ (if delay_given (delete_after a)
               then [DeleteTask smsg (delete_after a)] else []) in
  (forall r,
     http_reply evs1 = Return r ->
     match channel c with
     | inl ch =>
         if is_text_channel ch then returned r (inl ch)
         else outcome (send a (c, evs)) = Raise TypeError /\
              events_of (send a (c, evs)) = evs1
     | inr n => returned r (inr n)
     end) /\
  (forall e,
     http_reply evs1 = Raise e ->
     outcome (send a (c, evs)) = Raise e /\
     events_of (send a (c, evs)) = evs1).
Proof.
  intros a c evs ds am Hh Hl Hrej Hack Hds Ham request evs1 returned.
  subst returned. cbv beta zeta.
  rewrite (send_checked_path a c evs ds am Hl Hack Hh Hrej Hds Ham).
  cbv zeta. unfold followup_request, message_body.
  fold request. fold evs1.
  split.
  - intros r Hr. rewrite Hr. unfold slash_message, rbind.
    destruct (channel c) as [ch|n]; [destruct (is_text_channel ch)|];
      split; reflexivity.
  - intros e Hr. rewrite Hr. split; reflexivity.
Qed.

Lemma to_dict_raises : forall x e,
  to_dict x = Raise e -> e = AttributeError.
Proof.
  intros x e H. destruct x; inversion H; reflexivity.
Qed.

Lemma map_to_dict_raises : forall xs x,
  In x xs ->
  to_dict x = Raise AttributeError ->
  map_result to_dict xs = Raise AttributeError.
Proof.
  induction xs as [|y xs IH]; intros x Hin Hx; [destruct Hin|].
  cbn [map_result]. destruct (to_dict y) as [d|e] eqn:Hy.
  - destruct Hin as [->|Hin]; [rewrite Hx in Hy; discriminate|].
    rewrite (IH x Hin Hx). reflexivity.
  - rewrite (to_dict_raises y e Hy). reflexivity.
Qed.

(** The elements of [embeds] are not checked to be embeds: a list of at
    most 10 elements one of which has no [to_dict] passes every check, and
    [send] then fails with [AttributeError] while it builds the body: no
    followup is recorded, although the acknowledgement, if one was due,
    has gone out. *)
Theorem send_non_embed_element : forall a c evs xs x,
  hidden a = false ->
  int_between 2 5 (content a) = false ->
  acknowledged c evs = true ->
  truthy (embed a) = false ->
  embeds a = PList xs ->
  (Z.of_nat (List.length xs) <= 10) ->
  truthy (file a) && truthy (files a) = false ->
  In x xs ->
  to_dict x = Raise AttributeError ->
  outcome (send a (c, evs)) = Raise AttributeError /\
  events_of (send a (c, evs)) = evs ++ respond_events c.
Proof.
  intros a c evs xs x Hh Hl Hack He Hxs Hlen Hf Hin Hx.
  rewrite (send_acknowledged a c evs Hl Hack).
  assert (He' : truthy (embed a) && truthy (embeds a) = false)
    by (rewrite He; reflexivity).
  assert (Hacc : embeds_accepted (embeds_in_effect a) = true).
  { unfold embeds_accepted, embeds_in_effect. rewrite He, Hxs.
    apply Z.leb_le in Hlen. rewrite Hlen. apply orb_true_r. }
  rewrite (sent_checked a _ _ Hl (acked_self_sent c evs) Hh He' Hacc Hf).
  unfold embeds_in_effect. rewrite He, Hxs, embeds_to_dict_list.
  rewrite (map_to_dict_raises xs x Hin Hx). split; reflexivity.
Qed.

(** On an acknowledged context, a call that [send] lets through its
    checks posts the body [_legacy_send] posts for the same content, tts,
    allowed mentions and the embeds in effect, and, like it, nothing when
    a [to_dict()] fails: the two build the body alike; [send] adds the
    checks, the [wait] and [files] arguments and the returned message. *)
Theorem send_matches_legacy_send : forall a c evs,
  sent c = true ->
  hidden a = false ->
  int_between 2 5 (content a) = false ->
  rejected a = false ->
  posted_bodies (events_of (send a (c, evs)))
  = posted_bodies
      (events_of (_legacy_send (content a) (tts a) (embeds_in_effect a)
                    (allowed_mentions a) (c, evs))).
Proof.
  intros a c evs Hs Hh Hl Hrej.
  unfold rejected in Hrej.
  apply orb_false_iff in Hrej. destruct Hrej as [Hrej Hf].
  apply orb_false_iff in Hrej. destruct Hrej as [He Hacc].
  apply negb_false_iff in Hacc.
  rewrite (sent_checked a c evs Hl Hs Hh He Hacc Hf).
  run.
  destruct (embeds_to_dict (embeds_in_effect a)); [|reflexivity].
  destruct (mentions_to_dict c (allowed_mentions a)); [|reflexivity].
  unfold followup_request.
  destruct (http_reply _) as [r|].
  - destruct (slash_message c r).
    + rewrite !posted_bodies_app, posted_bodies_delete, app_nil_r. reflexivity.
    + rewrite !posted_bodies_app. reflexivity.
  - rewrite !posted_bodies_app. reflexivity.
Qed.

End Context.

(** ** Concrete runs *)

Lemma init_fields_witness :
  __init__ int_of_id http0 payload0 bot0 logger0 = Return ctx0 /\
  getitem payload0 "token" = Return (token ctx0) /\
  getitem payload0 "id" = Return (interaction_id ctx0).
Proof.
  split; [reflexivity|].
  destruct (init_fields int_of_id http0 payload0 bot0 logger0 ctx0)
    as (H1 & H2 & _); [reflexivity|].
  split; assumption.
Defined.

Lemma sent_flag_witness :
  sent ctx0 = false /\
  sent ctx1 = true /\
  self_of (send format_str reply_ok silence call_embeds (ctx1, [])) = ctx1.
Proof.
  destruct (sent_flag int_of_id format_str reply_ok silence) as (H1 & _ & H3).
  split; [|split].
  - apply (H1 http0 payload0 bot0 logger0). reflexivity.
  - reflexivity.
  - apply (H3 ctx1 []). reflexivity.
Defined.

Lemma send_hidden_body_witness :
  hidden call_both_hidden = true /\
  posted_bodies
    (events_of (send format_str reply_ok silence call_both_hidden (ctx0, [])))
  = [PDict [("type", PInt 5)];
     PDict [("content", PStr "pong"); ("flags", PInt 64)]].
Proof.
  split; [reflexivity|].
  destruct (send_hidden_body format_str reply_ok silence call_both_hidden ctx0 [])
    as [_ H]; [reflexivity|].
  destruct H as [He _]; [reflexivity | reflexivity |].
  rewrite He. reflexivity.
Defined.

Lemma send_rejects_conflict_witness :
  hidden call_both = false /\
  truthy (embed call_both) && truthy (embeds call_both) = true /\
  is_IncorrectFormat
    (outcome (send format_str reply_ok silence call_both (ctx0, []))) = true.
Proof.
  split; [reflexivity|]. split; [reflexivity|].
  destruct (send_rejects_conflict format_str reply_ok silence call_both ctx0 [])
    as [_ H]; [reflexivity | left; reflexivity |].
  apply H. reflexivity.
Defined.

Lemma send_acknowledges_first_witness :
  sent ctx0 = false /\
  sent (self_of (send format_str reply_ok silence call_both (ctx0, []))) = true.
Proof.
  split; [reflexivity|].
  destruct (send_acknowledges_first format_str reply_ok silence call_both ctx0 [])
    as [H _]; [reflexivity | reflexivity |].
  exact H.
Defined.

Lemma send_body_witness :
  rejected call_embeds = false /\
  posted_bodies
    (events_of (send format_str reply_ok silence call_embeds (ctx1, [])))
  = [PDict [("content", PStr "pong"); ("tts", PBool false);
            ("embeds", PList [PDict [("title", PStr "hi"); ("type", PStr "rich")]]);
            ("allowed_mentions", PDict [])]].
Proof.
  split; [reflexivity|].
  destruct (send_body format_str reply_ok silence call_embeds ctx1 []
              [PDict [("title", PStr "hi"); ("type", PStr "rich")]] (PDict []))
    as [(body & tail & He & Hp & Hb & _) _];
    [reflexivity | reflexivity | reflexivity | reflexivity | reflexivity
    | reflexivity |].
  rewrite He. cbn [respond_events sent ctx1 with_sent app posted_bodies].
  rewrite Hp, Hb. reflexivity.
Defined.

Lemma send_embeds_check_witness :
  hidden call_eleven = false /\
  is_IncorrectFormat
    (outcome (send format_str reply_ok silence call_eleven (ctx1, []))) = true.
Proof.
  split; [reflexivity|].
  destruct (send_embeds_check format_str reply_ok silence call_eleven ctx1 [])
    as (_ & H & _); [reflexivity | reflexivity |].
  apply (H (repeat embed_hi 11)); reflexivity.
Defined.

Lemma send_singular_plural_witness :
  truthy embed_hi = true /\
  send format_str reply_ok silence (set_embed embed_hi PNone call_embeds) (ctx0, [])
  = send format_str reply_ok silence
      (set_embed PNone (PList [embed_hi]) call_embeds) (ctx0, []).
Proof.
  split; [reflexivity|].
  destruct (send_singular_plural format_str reply_ok silence call_embeds
              (ctx0, []) embed_hi "a.png") as [H _]; [reflexivity|].
  exact H.
Defined.

Lemma init_without_guild_witness :
  lookup "guild_id"
    [("token", PStr "tok"); ("id", PStr "100");
     ("data", PDict [("name", PStr "ping"); ("id", PStr "200")]);
     ("channel_id", PStr "9"); ("user", PDict [("id", PStr "7")])] = None /\
  __init__ int_of_id http0 payload_dm bot0 logger0 = Raise (KeyError "guild_id").
Proof.
  split; [reflexivity|].
  apply (init_without_guild int_of_id http0
           [("token", PStr "tok"); ("id", PStr "100");
            ("data", PDict [("name", PStr "ping"); ("id", PStr "200")]);
            ("channel_id", PStr "9"); ("user", PDict [("id", PStr "7")])]
           bot0 logger0 (PStr "tok")
           (PDict [("name", PStr "ping"); ("id", PStr "200")])
           (PStr "ping") (PStr "100") (PStr "200")); reflexivity.
Defined.

Lemma init_other_attributes_witness :
  __init__ int_of_id http0 payload0 bot0 logger0 = Return ctx0 /\
  command ctx0 = name ctx0 /\ _http ctx0 = http0.
Proof.
  split; [reflexivity|].
  destruct (init_other_attributes int_of_id http0 payload0 bot0 logger0 ctx0)
    as (H1 & _ & _ & _ & _ & _ & _ & _ & H2 & _); [reflexivity|].
  split; assumption.
Defined.

Lemma send_legacy_guard_witness :
  int_between 2 5 (content call_legacy) = true /\
  snd (send format_str reply_ok silence call_legacy (ctx0, [])) = (ctx0, []).
Proof.
  split; [reflexivity|].
  destruct (send_legacy_guard format_str reply_ok silence call_legacy (ctx0, []))
    as [_ H].
  rewrite H; reflexivity.
Defined.

Lemma send_never_acknowledges_twice_witness :
  int_between 2 5 (content call_both) = false /\
  exists delta,
    events_of (send format_str reply_ok silence call_embeds
                 (snd (send format_str reply_ok silence call_both (ctx0, []))))
    = events_of (send format_str reply_ok silence call_both (ctx0, [])) ++ delta /\
    acks delta = 0%nat.
Proof.
  split; [reflexivity|].
  destruct (send_never_acknowledges_twice format_str reply_ok silence
              call_embeds ctx0 []) as [_ H].
  apply (H call_both). reflexivity.
Defined.

Lemma send_ack_failure_witness :
  ack_reply format_str reply_down ctx0 [] = Raise (ClientError "503") /\
  outcome (send format_str reply_down silence call_both (ctx0, []))
  = Raise (ClientError "503").
Proof.
  split; [reflexivity|].
  destruct (send_ack_failure format_str reply_down silence call_both ctx0 []
              (ClientError "503")) as [H _];
    [reflexivity | reflexivity | reflexivity |].
  exact H.
Defined.

Lemma send_returns_message_witness :
  rejected call_delete = false /\
  outcome (send format_str reply_ok silence call_delete (ctx1, []))
  = Return (Sent {| sm_data := PDict []; sm_channel := inl channel9;
                    sm_http := http0; sm_interaction_token := PStr "tok" |}).
Proof.
  split; [reflexivity|].
  destruct (send_returns_message format_str reply_ok silence call_delete ctx1 []
              [PDict [("title", PStr "hi"); ("type", PStr "rich")]] (PDict []))
    as [H _];
    [reflexivity | reflexivity | reflexivity | reflexivity | reflexivity
    | reflexivity |].
  destruct (H (PDict [])) as [Ho _]; [reflexivity|].
  exact Ho.
Defined.

Lemma send_non_embed_element_witness :
  to_dict (PStr "oops") = Raise AttributeError /\
  outcome (send format_str reply_ok silence call_bad_element (ctx0, []))
  = Raise AttributeError.
Proof.
  split; [reflexivity|].
  destruct (send_non_embed_element format_str reply_ok silence call_bad_element
              ctx0 [] [embed_hi; PStr "oops"] (PStr "oops")) as [H _];
    [reflexivity | reflexivity | reflexivity | reflexivity | reflexivity
    | cbn; lia | reflexivity | right; left; reflexivity | reflexivity |].
  exact H.
Defined.

Lemma send_matches_legacy_send_witness :
  rejected call_embeds = false /\
  posted_bodies
    (events_of (send format_str reply_ok silence call_embeds (ctx1, [])))
  = posted_bodies
      (events_of (_legacy_send reply_ok (PStr "pong") (PBool false)
                    (PList [embed_hi]) PNone (ctx1, []))).
Proof.
  split; [reflexivity|].
  apply (send_matches_legacy_send format_str reply_ok silence call_embeds ctx1 []);
    reflexivity.
Defined.

Lemma respond_misses_typed_messages_witness :
  check format_str ctx0 user_input_raw = true /\
  msg_type user_input = MessageType "application_command" 20 /\
  message (self_of (respond format_str reply_ok (fun _ => [chatter; user_input])
                      false (ctx0, [])))
  = None.
Proof.
  split; [reflexivity|]. split; [reflexivity|].
  destruct (respond_misses_typed_messages format_str reply_ok
              (fun _ => [chatter; user_input]) ctx0 []) as [H _].
  - intros m [<-|[<-|[]]]; eexists; eexists; reflexivity.
  - exact H.
Defined.

Lemma requests_delegated_witness :
  acknowledged format_str reply_ok ctx0 [] = true /\
  rejected call_embeds = false /\
  posted_bodies
    (events_of (send format_str reply_ok silence call_embeds (ctx0, [])))
  = [PDict [("type", PInt 5)];
     PDict [("content", PStr "pong"); ("tts", PBool false);
            ("embeds", PList [PDict [("title", PStr "hi"); ("type", PStr "rich")]]);
            ("allowed_mentions", PDict [])]].
Proof.
  split; [reflexivity|]. split; [reflexivity|].
  destruct (requests_delegated format_str reply_ok silence ctx0 [])
    as (_ & _ & _ & _ & H & _).
  destruct (H call_embeds
              [PDict [("title", PStr "hi"); ("type", PStr "rich")]] (PDict []))
    as (tail & He & Hp);
    [reflexivity | reflexivity | reflexivity | reflexivity | reflexivity
    | reflexivity |].
  rewrite He.
  cbn [respond_events sent ctx0 app posted_bodies respond_warning ack_request].
  rewrite Hp. reflexivity.
Defined.

(** Delivered with a raw integer type, the user's input is picked out of
    the channel's traffic; and [respond] marks the context as sent even
    when the client is down. *)
Example respond_finds_raw_user_input :
  message (self_of (respond format_str reply_ok
                      (fun _ => [chatter; user_input; user_input_raw])
                      false (ctx0, [])))
  = Some user_input_raw.
Proof. reflexivity. Qed.

(** In a cached voice channel the followup goes out and [send] then
    fails on the [Object] of line 171. *)
Example send_in_voice_channel :
  outcome (send format_str reply_ok silence call_delete (ctx_voice, []))
  = Raise TypeError /\
  posted_bodies
    (events_of (send format_str reply_ok silence call_delete (ctx_voice, [])))
  = [PDict [("content", PStr "pong"); ("tts", PBool false);
            ("embeds", PList [PDict [("title", PStr "hi"); ("type", PStr "rich")]]);
            ("allowed_mentions", PDict [])]].
Proof. split; reflexivity. Qed.

Example delay_given_numbers :
  delay_given None = false /\
  delay_given (Some (SecInt 0)) = false /\
  delay_given (Some (SecFloat 0%float)) = false /\
  delay_given (Some (SecFloat 2.5%float)) = true /\
  delay_given (Some (SecFloat nan)) = true.
Proof. repeat split. Qed.

Example int_of_id_strings :
  int_of_id (PStr " 1_000 ") = Return 1000 /\
  int_of_id (PStr "-42") = Return (-42) /\
  int_of_id (PStr "4__2") = Raise ValueError /\
  int_of_id (PStr "") = Raise ValueError /\
  int_of_id PNone = Raise TypeError /\
  format_str (PInt (-7)) = "-7"%string.
Proof. repeat split. Qed.

Example respond_client_down :
  outcome (respond format_str reply_down silence false (ctx0, []))
  = Raise (ClientError "503") /\
  sent (self_of (respond format_str reply_down silence false (ctx0, []))) = true /\
  message (self_of (respond format_str reply_down silence false (ctx0, []))) = None.
Proof. repeat split. Qed.

Example send_unsent_trace :
  events_of (send format_str reply_ok silence call_embeds (ctx0, []))
  = [Warning logger0
       "At command `ping`: It is highly recommended to call `.respond()` first!";
     Post http0 [PDict [("type", PInt 5)]; PBool false; PStr "100"; PStr "tok";
                 PBool true] [];
     WaitFor "message" 3;
     Post http0
       [PDict [("content", PStr "pong"); ("tts", PBool false);
               ("embeds", PList [PDict [("title", PStr "hi"); ("type", PStr "rich")]]);
               ("allowed_mentions", PDict [])];
        PBool false; PStr "100"; PStr "tok"]
       [("files", PNone)]].
Proof. reflexivity. Qed.

(** ** Where the specification and the code part *)

(** C4 as stated fails: [send(3, hidden=True)] posts no body at all, and
    a hidden call given the embed with nothing set logs no warning: the
    hidden body is all it records. *)
Lemma send_hidden_nothing_posted :
  (hidden call_legacy_hidden = true /\
   is_IncorrectFormat
     (outcome (send format_str reply_ok silence call_legacy_hidden (ctx1, [])))
   = true /\
   events_of (send format_str reply_ok silence call_legacy_hidden (ctx1, [])) = []) /\
  (hidden call_blank_hidden = true /\
   embed call_blank_hidden = embed_blank /\
   events_of (send format_str reply_ok silence call_blank_hidden (ctx1, []))
   = [Post http0
        [PDict [("content", PStr "pong"); ("flags", PInt 64)]; PBool false;
         PStr "100"; PStr "tok"] []]).
Proof.
  repeat split.
Qed.

(** C1 as stated fails: with [hidden=True] the call with both [embed] and
    [embeds] returns the client's reply, and with [hidden=False] an
    [embeds] that is given but empty raises nothing either. *)
Lemma send_conflict_not_raised :
  (embed call_both_hidden <> PNone /\
   embeds call_both_hidden <> PNone /\
   outcome (send format_str reply_ok silence call_both_hidden (ctx1, []))
   = Return (HiddenReply (PDict []))) /\
  (embed call_embed_and_empty <> PNone /\
   embeds call_embed_and_empty <> PNone /\
   is_IncorrectFormat
     (outcome (send format_str reply_ok silence call_embed_and_empty (ctx1, [])))
   = false).
Proof.
  repeat split; try discriminate; reflexivity.
Qed.

(** C2 as stated fails: an embed with nothing set is given, its
    [to_dict()] is [{"type": "rich"}], and the body posted carries an
    empty [embeds] list. *)
Lemma send_blank_embed_dropped :
  embed call_blank = embed_blank /\
  to_dict embed_blank = Return (PDict [("type", PStr "rich")]) /\
  posted_bodies
    (events_of (send format_str reply_ok silence call_blank (ctx1, [])))
  = [PDict [("content", PStr "pong"); ("tts", PBool false);
            ("embeds", PList []); ("allowed_mentions", PDict [])]].
Proof.
  repeat split.
Qed.

(** C8 as stated fails: an empty tuple is provided as [embeds], it is not
    a list, and [send] returns. *)
Lemma send_empty_tuple_accepted :
  embeds call_empty_tuple = PTuple [] /\
  isinstance_list (embeds call_empty_tuple) = false /\
  is_IncorrectFormat
    (outcome (send format_str reply_ok silence call_empty_tuple (ctx1, [])))
  = false /\
  is_Return
    (outcome (send format_str reply_ok silence call_empty_tuple (ctx1, [])))
  = true.
Proof.
  repeat split.
Qed.

(** C9 as stated fails: for the embed with nothing set, the singular form
    posts an empty [embeds] list and the plural form posts its
    [to_dict()]. *)
Lemma send_blank_singular_plural_differ :
  posted_bodies
    (events_of (send format_str reply_ok silence
                  (call (PStr "pong") embed_blank PNone false) (ctx1, [])))
  <> posted_bodies
       (events_of (send format_str reply_ok silence
                     (call (PStr "pong") PNone (PList [embed_blank]) false)
                     (ctx1, []))).
Proof.
  vm_compute. discriminate.
Qed.

(** C10 as stated fails: [send(3)] on an unsent context raises
    [IncorrectFormat] without acknowledging: nothing is recorded and [sent]
    is still [False]. *)
Lemma send_legacy_not_acknowledged :
  hidden call_legacy = false /\
  sent ctx0 = false /\
  is_IncorrectFormat
    (outcome (send format_str reply_ok silence call_legacy (ctx0, []))) = true /\
  events_of (send format_str reply_ok silence call_legacy (ctx0, [])) = [] /\
  sent (self_of (send format_str reply_ok silence call_legacy (ctx0, []))) = false.
Proof.
  repeat split.
Qed.
